(** * Authentication controller of the tour booking API

    A shallow embedding of [src/controllers/authController.js]: the
    request handlers [signup], [login], [logout], [protect],
    [isLoggedIn], [restrictTo], [forgotPassword], [resetPassword] and
    [updatePassword], with the helper [createSendToken].

    A handler is a function from the request, the clock and the state
    it can touch (the user collection, [req.user], [res.locals.user])
    to what it did ([res.json], [next(...)], or an exception) and the
    state afterwards.  Libraries the controller calls (jsonwebtoken,
    crypto, the mailer, the schema validators and the password hasher
    of the user model) are variables of the section [Controller]; what
    they throw is part of their result.  A request is taken as the
    middleware before the handler leaves it: [req.cookies] is there
    only when a cookie parser ran. *)

From Stdlib Require Import String Ascii List ZArith Bool Lia.
Import ListNotations.

Local Open Scope string_scope.
Local Open Scope Z_scope.

(** ** JavaScript values and string methods *)

Module JS.

(** A property that may be [undefined] is an [option]; the only
    falsy values such a property takes here are [undefined] and the
    empty string. *)
Definition truthy (v : option string) : bool :=
  match v with
  | Some s => negb (s =? "")%string
  | None => false
  end.

(** [s.startsWith(p)] *)
Definition startsWith (s p : string) : bool := String.prefix p s.

(** [s.split(c)] for a separator of one character: the pieces
    between the occurrences of [c], empty pieces included. *)
Fixpoint split (s : string) (c : ascii) : list string :=
  match s with
  | EmptyString => [EmptyString]
  | String a r =>
      if Ascii.eqb a c then EmptyString :: split r c
      else match split r c with
           | h :: t => String a h :: t
           | [] => [String a EmptyString]
           end
  end.

(** [roles.includes(r)] on an array of strings *)
Definition includes (l : list string) (r : string) : bool :=
  existsb (String.eqb r) l.

(** [c] occurs in [s] *)
Fixpoint occurs (c : ascii) (s : string) : bool :=
  match s with
  | EmptyString => false
  | String a r => Ascii.eqb a c || occurs c r
  end.

End JS.

(** ** Data model *)

(** A user document as a handler holds it.  [password] is the stored
    verifier when the document was read with [select('+password')],
    the new plaintext once a handler has assigned it, and [None] when
    the field was not selected or was set to [undefined]. *)
Record User := mkUser {
  _id : string;
  name : string;
  email : string;
  role : string;
  password : option string;
  passwordConfirm : option string;
  passwordChangedAt : option Z;
  passwordResetToken : option string;
  passwordResetExpires : option Z
}.

Definition set_password (v : option string) (u : User) : User :=
  mkUser (_id u) (name u) (email u) (role u) v (passwordConfirm u)
         (passwordChangedAt u) (passwordResetToken u) (passwordResetExpires u).

Definition set_passwordConfirm (v : option string) (u : User) : User :=
  mkUser (_id u) (name u) (email u) (role u) (password u) v
         (passwordChangedAt u) (passwordResetToken u) (passwordResetExpires u).

Definition set_passwordChangedAt (v : option Z) (u : User) : User :=
  mkUser (_id u) (name u) (email u) (role u) (password u) (passwordConfirm u)
         v (passwordResetToken u) (passwordResetExpires u).

Definition set_passwordResetToken (v : option string) (u : User) : User :=
  mkUser (_id u) (name u) (email u) (role u) (password u) (passwordConfirm u)
         (passwordChangedAt u) v (passwordResetExpires u).

Definition set_passwordResetExpires (v : option Z) (u : User) : User :=
  mkUser (_id u) (name u) (email u) (role u) (password u) (passwordConfirm u)
         (passwordChangedAt u) (passwordResetToken u) v.

(** The user collection, in insertion order. *)
Definition Collection := list User.

(** [process.env] as the controller reads it: a variable is a string
    or [undefined].  [JWT_COOKIE_EXPIRES_IN] is kept as the number the
    controller gets when it multiplies the variable: a whole count of
    days, or [None] when the variable is missing or not numeric (NaN). *)
Record Env := mkEnv {
  JWT_SECRET : option string;
  JWT_EXPIRES_IN : option string;
  JWT_COOKIE_EXPIRES_IN : option Z;
  NODE_ENV : option string
}.

(** What [jwt.verify] decodes: [{ id, iat, exp }]. *)
Record Payload := mkPayload {
  id : string;
  iat : Z;
  exp : Z
}.

(** Modelled from the spec: utils/appError.js is not among the sources.
    An error value is the structured error of section 7: a message and
    a status code.  [new AppError(m, c)] is [AppError m (Some c)] and
    [new AppError(m)], with the second argument left out, is
    [AppError m None].  [LibError] is an error raised by a library
    (token verification, validation, the database driver), named by its
    [name]; [TypeError] is a property read on [undefined] or [null]. *)
Inductive Error :=
| AppError (message : string) (statusCode : option Z)
| LibError (errname : string)
| TypeError.

Definition statusCode_of (e : Error) : option Z :=
  match e with
  | AppError _ c => c
  | _ => None
  end.

Definition message_of (e : Error) : option string :=
  match e with
  | AppError m _ => Some m
  | _ => None
  end.

(** The options object of [res.cookie]; [ck_secure] is [None] when the
    property is not set. *)
Record Cookie := mkCookie {
  ck_name : string;
  ck_value : string;
  ck_expires : Z;
  ck_httpOnly : bool;
  ck_secure : option bool
}.

(** The object given to [res.json]. *)
Record Json := mkJson {
  j_status : string;
  j_token : option string;
  j_message : option string;
  j_user : option User
}.

Record Response := mkResponse {
  res_cookie : option Cookie;
  res_status : Z;
  res_json : Json
}.

(** An argument of a call of [next]. *)
Inductive Arg :=
| AErr (e : Error)
| ANum (n : Z).

(** How a handler ends: it sent a response, it called [next] with
    these arguments, or an exception left it. *)
Inductive Outcome :=
| Sent (r : Response)
| Next (args : list Arg)
| Thrown (e : Error).

(** The error a call of [next] hands to the error responder is its
    first argument. *)
Definition error_of (o : Outcome) : option Error :=
  match o with
  | Next (AErr e :: _) => Some e
  | _ => None
  end.

(** [req.cookies] as the cookie parser leaves it. *)
Record CookieJar := mkJar {
  jwt : option string
}.

(** [cookies] is [None] when [req.cookies] is [undefined]: no cookie
    parser ran before the handler, as in the application of
    [src/app.js], which mounts none. *)
Record Request := mkRequest {
  headers_authorization : option string;
  cookies : option CookieJar;
  body_name : option string;
  body_email : option string;
  body_password : option string;
  body_passwordConfirm : option string;
  body_passwordCurrent : option string;
  params_token : string;
  protocol : string;
  host : string
}.

(** The state a handler reads and writes: the collection, [req.user]
    and [res.locals.user]. *)
Record State := mkState {
  db : Collection;
  req_user : option User;
  locals_user : option User
}.

Definition set_db (c : Collection) (s : State) : State :=
  mkState c (req_user s) (locals_user s).

(** The argument of [sendEmail]. *)
Record Mail := mkMail {
  m_email : string;
  m_subject : string;
  m_message : string
}.

(** ** The user directory *)

Module Directory.

(** Modelled from the spec: models/userModel.js is not among the
    sources.  The password verifier is excluded from default read
    projections unless explicitly requested (section 6). *)
Definition project (u : User) : User := set_password None u.

(** [User.findOne(q)]: the first document that satisfies [q], without
    its password. *)
Definition findOne (q : User -> bool) (c : Collection) : option User :=
  option_map project (find q c).

(** [User.findOne(q).select('+password')] *)
Definition findOne_select_password (q : User -> bool) (c : Collection)
  : option User :=
  find q c.

Definition by_id (i : string) (u : User) : bool := (_id u =? i)%string.

(** The query [{ email }]; a query value of [undefined] matches no
    document, every stored identity having an email. *)
Definition by_email (e : option string) (u : User) : bool :=
  match e with
  | Some e => (email u =? e)%string
  | None => false
  end.

(** The query
    [{ passwordResetToken: h, passwordResetExpires: { $gt: now } }]. *)
Definition by_reset (h : string) (now : Z) (u : User) : bool :=
  match passwordResetToken u, passwordResetExpires u with
  | Some t, Some e => (t =? h)%string && (now <? e)
  | _, _ => false
  end.

Definition findById (i : string) (c : Collection) : option User :=
  findOne (by_id i) c.

Definition findById_select_password (i : string) (c : Collection)
  : option User :=
  findOne_select_password (by_id i) c.

(** Modelled from the spec: models/userModel.js is not among the
    sources.  Compare identity's password-changed timestamp against
    the token's issued-at timestamp: true if the password was changed
    after issuance (section 4.5, step 4).  Both timestamps are read
    on one clock. *)
Definition changedPasswordAfter (u : User) (JWTTimestamp : Z) : bool :=
  match passwordChangedAt u with
  | Some t => JWTTimestamp <? t
  | None => false
  end.

End Directory.

(** ** The controller *)

Section Controller.

(** [jwt.sign({ id }, secret, { expiresIn })] at a given time, which
    returns the token ([inr]) or throws an error of the library, given
    by its name ([inl]: a missing or empty secret, a malformed
    [expiresIn]); and [jwt.verify(token, secret)] at a given time,
    which decodes the payload or throws. *)
Variable jwt_sign : string -> option string -> option string -> Z
                    -> string + string.
Variable jwt_verify : string -> option string -> Z -> Error + Payload.

(** [crypto.createHash('sha256').update(s).digest('hex')] *)
Variable sha256 : string -> string.

(** The Credential Hasher: [user.correctPassword(candidate, verifier)]
    and the transform the user model applies to a password before it
    is stored. *)
Variable correctPassword : option string -> option string -> bool.
Variable hashPassword : string -> string.

(** The schema validators, run by [create] and by [save] unless
    [validateBeforeSave] is false. *)
Variable validate : User -> bool.

(** The Notification Dispatcher: [true] when the mail was handed
    over, [false] when [sendEmail] throws. *)
Variable sendEmail : Mail -> bool.

Import Directory.

(** *** Persistence *)

(** Modelled from the spec: models/userModel.js is not among the
    sources.  Setting a new password triggers re-hash and
    password-changed timestamp update (section 4.7); the confirmation
    is never persisted. *)
Definition pre_save (now : Z) (doc : User) : User :=
  match password doc with
  | Some p =>
      set_passwordChangedAt (Some now)
        (set_passwordConfirm None (set_password (Some (hashPassword p)) doc))
  | None => set_passwordConfirm None doc
  end.

(** What [save] leaves in the collection for the document [u] that
    [doc] was read from: the fields of [doc], and the stored verifier
    when [doc] carries no password. *)
Definition stored (doc u : User) : User :=
  match password doc with
  | Some _ => doc
  | None => set_password (password u) doc
  end.

Definition write (doc : User) (c : Collection) : Collection :=
  map (fun u => if by_id (_id doc) u then stored doc u else u) c.

(** Modelled from the spec: models/userModel.js is not among the
    sources.  [doc.save({ validateBeforeSave })]: save, with an
    option to bypass validation (section 6); the document after the
    hooks and the collection after the write, or the validation
    error. *)
Definition save (validateBeforeSave : bool) (now : Z) (doc : User)
    (c : Collection) : Error + (User * Collection) :=
  if validateBeforeSave && negb (validate doc)
  then inl (LibError "ValidationError")
  else let doc' := pre_save now doc in inr (doc', write doc' c).

(** Modelled from the spec: models/userModel.js is not among the
    sources.  [User.create(fields)]: an identity has an email, which
    is unique (section 3); the role is not taken from the request and
    the stored password is the verifier. *)
Definition create (newId : string) (n e p pc : option string)
    (c : Collection) : Error + (User * Collection) :=
  match e with
  | None => inl (LibError "ValidationError")
  | Some e =>
      let doc := mkUser newId (match n with Some n => n | None => "" end)
                   e "user" p pc None None None in
      if negb (validate doc) then inl (LibError "ValidationError")
      else if existsb (by_email (Some e)) c then inl (LibError "MongoError")
      else
        let doc' :=
          set_passwordConfirm None
            (set_password (option_map hashPassword p) doc) in
        inr (doc', (c ++ [doc'])%list)
  end.

(** Modelled from the spec: models/userModel.js is not among the
    sources.  [user.createPasswordResetToken()]: from a random raw
    value, keeps only its one-way hash and an expiry (now + 10
    minutes) on the identity record and returns the raw value
    (section 4.4). *)
Definition createPasswordResetToken (raw : string) (now : Z) (u : User)
  : string * User :=
  (raw,
   set_passwordResetExpires (Some (now + 10 * 60 * 1000))
     (set_passwordResetToken (Some (sha256 raw)) u)).

(** Modelled from the spec: utils/catchAsync.js is not among the
    sources.  Handler-level failures are funneled to the centralized
    error responder (section 7): an exception that leaves the wrapped
    handler is passed to [next]. *)
Definition catchAsync (r : Outcome * State) : Outcome * State :=
  match fst r with
  | Thrown e => (Next [AErr e], snd r)
  | _ => r
  end.

(** *** Handlers *)

Definition signToken (env : Env) (now : Z) (i : string) : Error + string :=
  match jwt_sign i (JWT_SECRET env) (JWT_EXPIRES_IN env) now with
  | inl n => inl (LibError n)
  | inr token => inr token
  end.

(** [new Date(t)]: the time value, or [None] for an Invalid Date (a
    NaN, or a time outside the range of 8.64e15 ms around the epoch).
    Up to that bound the sums and products of whole numbers are exact
    in JavaScript numbers. *)
Definition new_Date (t : option Z) : option Z :=
  match t with
  | Some v => if Z.abs v <=? 8640000000000000 then Some v else None
  | None => None
  end.

(** The options of the session cookie, when [expires] is a valid date.
    With an Invalid Date there, [res.cookie] throws a TypeError. *)
Definition cookieOptions (env : Env) (now : Z) (value : string)
  : option Cookie :=
  match new_Date (option_map (fun n => now + n * 24 * 60 * 60 * 1000)
                    (JWT_COOKIE_EXPIRES_IN env)) with
  | Some expires =>
      Some (mkCookie "jwt" value expires true
              (match NODE_ENV env with
               | Some m => if (m =? "production")%string then Some true
                           else None
               | None => None
               end))
  | None => None
  end.

Definition createSendToken (env : Env) (now : Z) (user : User)
    (statusCode : Z) : Outcome :=
  match signToken env now (_id user) with
  | inl e => Thrown e
  | inr token =>
      match cookieOptions env now token with
      | None => Thrown TypeError
      | Some cookie =>
          let user := set_password None user in
          Sent (mkResponse (Some cookie) statusCode
                  (mkJson "success" (Some token) None (Some user)))
      end
  end.

Definition signup (env : Env) (now : Z) (newId : string) (req : Request)
    (st : State) : Outcome * State :=
  catchAsync
    match create newId (body_name req) (body_email req)
            (body_password req) (body_passwordConfirm req) (db st) with
    | inl e => (Thrown e, st)
    | inr (newUser, c) => (createSendToken env now newUser 201, set_db c st)
    end.

Definition login (env : Env) (now : Z) (req : Request) (st : State)
  : Outcome * State :=
  catchAsync
    (if negb (JS.truthy (body_email req))
        || negb (JS.truthy (body_password req))
     then (Next [AErr (AppError "Please provide email and password!"
                         (Some 400))], st)
     else
       match findOne_select_password (by_email (body_email req)) (db st) with
       | None =>
           (Next [AErr (AppError "Incorrect email or password" (Some 401))],
            st)
       | Some user =>
           if negb (correctPassword (body_password req) (password user))
           then (Next [AErr (AppError "Incorrect email or password"
                               (Some 401))], st)
           else (createSendToken env now user 200, st)
       end).

(** [now] is what [Date.now()] returns, a time far inside the range
    of valid dates, and so is the time 10 seconds later. *)
Definition logout (now : Z) (req : Request) (st : State)
  : Outcome * State :=
  (Sent (mkResponse
           (Some (mkCookie "jwt" "loggedout" (now + 10 * 1000) true None))
           200
           (mkJson "success" None None None)),
   st).

(** What [req.cookies.jwt] gives as a token: the cookie when it is
    truthy, [undefined] when it is not, and a TypeError when
    [req.cookies] itself is [undefined]. *)
Definition cookie_token (req : Request) : Error + option string :=
  match cookies req with
  | None => inl TypeError
  | Some jar => inr (if JS.truthy (jwt jar) then jwt jar else None)
  end.

(** The token [protect] works with (step 1 of the handler): the
    second piece of the Authorization header when the header starts
    with [Bearer], else what [req.cookies.jwt] gives. *)
Definition protect_token (req : Request) : Error + option string :=
  match headers_authorization req with
  | Some h =>
      if JS.truthy (Some h) && JS.startsWith h "Bearer"
      then inr (nth_error (JS.split h " ") 1)
      else cookie_token req
  | None => cookie_token req
  end.

Definition protect (env : Env) (now : Z) (req : Request) (st : State)
  : Outcome * State :=
  catchAsync
    match protect_token req with
    | inl e => (Thrown e, st)
    | inr token =>
       if negb (JS.truthy token)
       then (Next [AErr (AppError
                           "You are not logged in! Please log in to get access."
                           (Some 401))], st)
       else
         match jwt_verify (match token with Some t => t | None => "" end)
                 (JWT_SECRET env) now with
         | inl e => (Thrown e, st)
         | inr decoded =>
             match findById (id decoded) (db st) with
             | None =>
                 (Next [AErr (AppError
                     "The user belonging to this token does no longer exist."
                     (Some 401))], st)
             | Some currentUser =>
                 if changedPasswordAfter currentUser (iat decoded)
                 then (Next [AErr (AppError
                         "User recently changed password! Please log in again."
                         (Some 401))], st)
                 else (Next [],
                       mkState (db st) (Some currentUser) (Some currentUser))
             end
         end
    end.

(** The token [isLoggedIn] works with: what [req.cookies.jwt] gives. *)
Definition isLoggedIn_token (req : Request) : Error + option string :=
  cookie_token req.

(** [isLoggedIn] is not wrapped in [catchAsync]; its [try] block
    covers everything after the test of [req.cookies.jwt], and not
    that test. *)
Definition isLoggedIn (env : Env) (now : Z) (req : Request) (st : State)
  : Outcome * State :=
  match isLoggedIn_token req with
  | inl e => (Thrown e, st)
  | inr (Some token) =>
      match jwt_verify token (JWT_SECRET env) now with
      | inl err => (Next [], st)
      | inr decoded =>
          match findById (id decoded) (db st) with
          | None => (Next [], st)
          | Some currentUser =>
              if changedPasswordAfter currentUser (iat decoded)
              then (Next [], st)
              else (Next [],
                    mkState (db st) (req_user st) (Some currentUser))
          end
      end
  | inr None => (Next [], st)
  end.

Definition restrictTo (roles : list string) (req : Request) (st : State)
  : Outcome * State :=
  match req_user st with
  | None => (Thrown TypeError, st)
  | Some u =>
      if negb (JS.includes roles (role u))
      then (Next [AErr (AppError
                          "You do not have permission to perform this action"
                          (Some 403))], st)
      else (Next [], st)
  end.

Definition newline : string := String (ascii_of_nat 10) EmptyString.

Definition forgotPassword (now : Z) (raw : string) (req : Request)
    (st : State) : Outcome * State :=
  catchAsync
    match findOne (by_email (body_email req)) (db st) with
    | None =>
        (Next [AErr (AppError "There is no user with email address."
                       (Some 404))], st)
    | Some user =>
        let (resetToken, user) := createPasswordResetToken raw now user in
        match save false now user (db st) with
        | inl e => (Thrown e, st)
        | inr (user, c1) =>
            let resetURL :=
              protocol req ++ "://" ++ host req
              ++ "/api/v1/users/resetPassword/" ++ resetToken in
            let message :=
              "Forgot your password? Submit a PATCH request with your new password and passwordConfirm to: "
              ++ resetURL ++ "." ++ newline
              ++ "If you didn't forget your password, please ignore this email!" in
            if sendEmail
                 (mkMail (email user)
                    "Your password reset token (valid for 10 min)" message)
            then (Sent (mkResponse None 200
                          (mkJson "success" None
                             (Some "Token sent to email!") None)),
                  set_db c1 st)
            else
              let user := set_passwordResetToken None user in
              let user := set_passwordResetExpires None user in
              match save false now user c1 with
              | inl e => (Thrown e, set_db c1 st)
              | inr (_, c2) =>
                  (Next [AErr (AppError
                      "There was an error sending the email. Try again later!"
                      None);
                         ANum 500],
                   set_db c2 st)
              end
        end
    end.

Definition resetPassword (env : Env) (now : Z) (req : Request) (st : State)
  : Outcome * State :=
  catchAsync
    (let hashedToken := sha256 (params_token req) in
     match findOne (by_reset hashedToken now) (db st) with
     | None =>
         (Next [AErr (AppError "Token is invalid or has expired" (Some 400))],
          st)
     | Some user =>
         let user := set_password (body_password req) user in
         let user := set_passwordConfirm (body_passwordConfirm req) user in
         let user := set_passwordResetToken None user in
         let user := set_passwordResetExpires None user in
         match save true now user (db st) with
         | inl e => (Thrown e, st)
         | inr (user, c) => (createSendToken env now user 200, set_db c st)
         end
     end).

Definition updatePassword (env : Env) (now : Z) (req : Request) (st : State)
  : Outcome * State :=
  catchAsync
    match req_user st with
    | None => (Thrown TypeError, st)
    | Some ru =>
        match findById_select_password (_id ru) (db st) with
        | None => (Thrown TypeError, st)
        | Some user =>
            if negb (correctPassword (body_passwordCurrent req)
                       (password user))
            then (Next [AErr (AppError "Your current password is wrong."
                                (Some 401))], st)
            else
              let user := set_password (body_password req) user in
              let user :=
                set_passwordConfirm (body_passwordConfirm req) user in
              match save true now user (db st) with
              | inl e => (Thrown e, st)
              | inr (user, c) =>
                  (createSendToken env now user 200, set_db c st)
              end
        end
    end.

End Controller.

(** ** Sample collaborators and data

    A toy token issuer (the token is the identity reference, issued at
    time 1000 and valid until 9000), a toy hasher and a small
    collection, to run the handlers on. *)

Module Sample.

Definition sign (i : string) (secret expiresIn : option string) (now : Z)
  : string + string :=
  match secret with
  | Some k => if (k =? "")%string then inl "Error" else inr i
  | None => inl "Error"
  end.

Definition verify (token : string) (secret : option string) (now : Z)
  : Error + Payload :=
  if (token =? "garbage")%string then inl (LibError "JsonWebTokenError")
  else if 9000 <=? now then inl (LibError "TokenExpiredError")
  else inr (mkPayload token 1000 9000).

Definition digest (s : string) : string := "h(" ++ s ++ ")".

Definition correct (candidate verifier : option string) : bool :=
  match candidate, verifier with
  | Some c, Some v => (v =? digest c)%string
  | _, _ => false
  end.

Definition valid (u : User) : bool :=
  match password u, passwordConfirm u with
  | Some p, Some q => (p =? q)%string
  | _, _ => false
  end.

Definition mailer_down (m : Mail) : bool := false.

Definition env : Env :=
  mkEnv (Some "s3cr3t") (Some "90d") (Some 90) (Some "production").

(** A configuration without a signing secret. *)
Definition env_no_secret : Env :=
  mkEnv None (Some "90d") (Some 90) (Some "production").

Definition alice : User :=
  mkUser "u1" "Alice" "alice@example.com" "admin"
    (Some (digest "alicepass")) None None None None.

Definition bob : User :=
  mkUser "u2" "Bob" "bob@example.com" "user"
    (Some (digest "bobpass")) None (Some 5000)
    (Some (digest "raw1")) (Some 700000).

Definition users : Collection := [alice; bob].

Definition state : State := mkState users None None.

Definition no_cookies : option CookieJar := Some (mkJar None).

Definition request : Request :=
  mkRequest None no_cookies None None None None None "" "https"
    "tours.example".

Definition with_login (e p : option string) : Request :=
  mkRequest None no_cookies None e p None None "" "https" "tours.example".

(** A request with the Authorization header [h] and the parsed cookie
    [jwt = c]. *)
Definition with_auth (h c : option string) : Request :=
  mkRequest h (Some (mkJar c)) None None None None None "" "https"
    "tours.example".

(** A request as the application of [src/app.js] hands it over:
    [req.cookies] is [undefined]. *)
Definition unparsed (h : option string) : Request :=
  mkRequest h None None None None None None "" "https" "tours.example".

Definition with_reset (t : string) (p pc : option string) : Request :=
  mkRequest None no_cookies None None p pc None t "https" "tours.example".

Definition bearer_only : Request := with_auth (Some "Bearer u1") None.

(** A verifier that knows the tokens of the two sample identities
    only. *)
Definition verify_known (token : string) (secret : option string) (now : Z)
  : Error + Payload :=
  if existsb (String.eqb token) ["u1"; "u2"]
  then inr (mkPayload token 1000 9000)
  else inl (LibError "JsonWebTokenError").

Definition mailer_up (m : Mail) : bool := true.

Definition alice_login : Request :=
  with_login (Some "alice@example.com") (Some "alicepass").


Definition alice_update : Request :=
  mkRequest None no_cookies None None (Some "newpass12") (Some "newpass12")
    (Some "alicepass") "" "https" "tours.example".

Definition alice_attached : State :=
  mkState users (Some (Directory.project alice)) None.

End Sample.

(** ** Directory invariant

    A reset-token hash stands for one identity: the raw values are
    random, so no two identities store the same hash. *)
Definition reset_hash_unique (c : Collection) : Prop :=
  forall u v h,
    In u c -> In v c ->
    passwordResetToken u = Some h -> passwordResetToken v = Some h ->
    _id u = _id v.

(** An identity holds an active reset token for the hash [h] at time
    [now]. *)
Definition active_reset (h : string) (now : Z) (u : User) : Prop :=
  passwordResetToken u = Some h
  /\ exists t, passwordResetExpires u = Some t /\ now < t.

(** ** Lemmas on the directory *)

Lemma find_absent (q : User -> bool) (c : Collection) :
  (forall u, In u c -> q u = false) -> find q c = None.
Proof.
  induction c as [|x c IH]; intros H; simpl.
  - reflexivity.
  - rewrite (H x (or_introl eq_refl)). apply IH.
    intros u Hu. apply H. right. exact Hu.
Qed.

Lemma find_present (q : User -> bool) (c : Collection) (u : User) :
  find q c = Some u -> In u c /\ q u = true.
Proof. apply find_some. Qed.

Lemma by_email_spec (e : string) (u : User) :
  Directory.by_email (Some e) u = true <-> email u = e.
Proof. unfold Directory.by_email. apply String.eqb_eq. Qed.

Lemma split_without_separator (s : string) (c : ascii) :
  JS.occurs c s = false -> JS.split s c = [s].
Proof.
  induction s as [|a r IH]; simpl; intros H.
  - reflexivity.
  - apply orb_false_elim in H. destruct H as [Ha Hr].
    rewrite Ha, (IH Hr). reflexivity.
Qed.

Lemma startsWith_nonempty (s p : string) :
  p <> "" -> JS.startsWith s p = true -> JS.truthy (Some s) = true.
Proof.
  intros Hp H. destruct s as [|a r]; [|reflexivity].
  destruct p as [|b q]; [congruence|discriminate H].
Qed.

Lemma catchAsync_sent (x : Outcome * State) (r : Response) (st : State) :
  catchAsync x = (Sent r, st) -> x = (Sent r, st).
Proof.
  destruct x as [o s]. unfold catchAsync. simpl.
  destruct o; intros H; try exact H. discriminate H.
Qed.

Lemma catchAsync_snd (x : Outcome * State) : snd (catchAsync x) = snd x.
Proof. destruct x as [o s]. unfold catchAsync. destruct o; reflexivity. Qed.

Lemma catchAsync_fst_sent (x : Outcome * State) (r : Response) :
  fst (catchAsync x) = Sent r -> fst x = Sent r.
Proof.
  destruct x as [o s]. unfold catchAsync. simpl.
  destruct o; intros H; try exact H. discriminate H.
Qed.

Lemma createSendToken_user
    (sign : string -> option string -> option string -> Z -> string + string)
    (env : Env) (now : Z) (user : User) (code : Z) (r : Response) :
  createSendToken sign env now user code = Sent r ->
  j_user (res_json r) = Some (set_password None user)
  /\ res_status r = code
  /\ exists token c,
       signToken sign env now (_id user) = inr token
       /\ cookieOptions env now token = Some c
       /\ j_token (res_json r) = Some token
       /\ res_cookie r = Some c.
Proof.
  unfold createSendToken.
  destruct (signToken sign env now (_id user)) as [e|token] eqn:Hs;
    [discriminate|].
  destruct (cookieOptions env now token) as [c|] eqn:Hc; [|discriminate].
  intros H. injection H as <-. cbn.
  split; [reflexivity|]. split; [reflexivity|].
  exists token, c. repeat split. exact Hc.
Qed.

(** [createSendToken] sends, or throws the error of [jwt.sign] or the
    TypeError of [res.cookie]; never an error of the controller's
    own. *)
Lemma createSendToken_outcome
    (sign : string -> option string -> option string -> Z -> string + string)
    (env : Env) (now : Z) (user : User) (code : Z) :
  (exists r, createSendToken sign env now user code = Sent r)
  \/ (exists n,
        sign (_id user) (JWT_SECRET env) (JWT_EXPIRES_IN env) now = inl n
        /\ createSendToken sign env now user code = Thrown (LibError n))
  \/ (exists token,
        sign (_id user) (JWT_SECRET env) (JWT_EXPIRES_IN env) now = inr token
        /\ cookieOptions env now token = None
        /\ createSendToken sign env now user code = Thrown TypeError).
Proof.
  unfold createSendToken, signToken.
  destruct (sign (_id user) (JWT_SECRET env) (JWT_EXPIRES_IN env) now)
    as [n|token].
  - right. left. exists n. auto.
  - destruct (cookieOptions env now token) as [c|] eqn:Hc.
    + left. eexists. reflexivity.
    + right. right. exists token. auto.
Qed.

(** Case analysis on the scrutinee of a [match] in a hypothesis. *)
Ltac break_match_in H :=
  cbv zeta in H;
  match type of H with
  | context [match ?x with _ => _ end] => destruct x eqn:?
  end.

(** What [write] does to the collection. *)

Lemma stored_fields (d x : User) :
  _id (stored d x) = _id d
  /\ email (stored d x) = email d
  /\ role (stored d x) = role d
  /\ passwordChangedAt (stored d x) = passwordChangedAt d
  /\ passwordResetToken (stored d x) = passwordResetToken d
  /\ passwordResetExpires (stored d x) = passwordResetExpires d.
Proof. unfold stored. destruct (password d); simpl; auto 10. Qed.

Lemma stored_password (d x : User) (p : string) :
  password d = Some p -> password (stored d x) = Some p.
Proof. unfold stored. intros H. rewrite H. exact H. Qed.

Lemma write_in (d : User) (c : Collection) (v : User) :
  In v (write d c) ->
  (exists x, In x c /\ _id x = _id d /\ v = stored d x)
  \/ (In v c /\ _id v <> _id d).
Proof.
  unfold write. intros H. apply in_map_iff in H.
  destruct H as [x [Hv Hx]]. unfold Directory.by_id in Hv.
  destruct (String.eqb_spec (_id x) (_id d)) as [E|E].
  - left. exists x. auto.
  - right. subst v. auto.
Qed.

Lemma write_same_id (d : User) (c : Collection) (v : User) :
  In v (write d c) -> _id v = _id d -> exists x, In x c /\ v = stored d x.
Proof.
  intros H E. apply write_in in H.
  destruct H as [[x [Hx [_ Hv]]] | [_ Hne]].
  - exists x. auto.
  - contradiction.
Qed.

Lemma find_write_first (q : User -> bool) (d : User) (c : Collection)
    (u : User) :
  find q c = Some u -> _id u = _id d ->
  (forall x, q (stored d x) = true) ->
  exists x, In x c /\ find q (write d c) = Some (stored d x).
Proof.
  intros Hf Hid Hq. unfold write, Directory.by_id.
  induction c as [|a c IH]; cbn [find map In] in *.
  - discriminate Hf.
  - destruct (q a) eqn:Ha.
    + injection Hf as ->. rewrite Hid, String.eqb_refl, Hq.
      exists u. auto.
    + destruct (_id a =? _id d)%string.
      * rewrite Hq. exists a. auto.
      * rewrite Ha. destruct (IH Hf) as [x [Hx Hw]].
        exists x. auto.
Qed.

Lemma by_reset_spec (h : string) (now : Z) (u : User) :
  Directory.by_reset h now u = true <-> active_reset h now u.
Proof.
  unfold Directory.by_reset, active_reset.
  destruct (passwordResetToken u) as [t|], (passwordResetExpires u) as [x|];
    split; try discriminate.
  - intros H. apply andb_prop in H. destruct H as [Ht Hx].
    apply String.eqb_eq in Ht. apply Z.ltb_lt in Hx. subst t.
    split; [reflexivity|]. exists x. auto.
  - intros [Ht [x' [Hx Hlt]]]. injection Ht as ->. injection Hx as ->.
    rewrite String.eqb_refl. apply Z.ltb_lt in Hlt. rewrite Hlt. reflexivity.
  - intros [_ [x' [Hx _]]]. discriminate Hx.
  - intros [Ht _]. discriminate Ht.
  - intros [Ht _]. discriminate Ht.
Qed.

Lemma by_reset_false (h : string) (now : Z) (u : User) :
  passwordResetToken u <> Some h -> Directory.by_reset h now u = false.
Proof.
  intros H. apply not_true_is_false. intros Hq.
  apply by_reset_spec in Hq. destruct Hq as [Ht _]. exact (H Ht).
Qed.

(** ** Properties of the handlers *)

Section Properties.

Variable jwt_sign : string -> option string -> option string -> Z
                    -> string + string.
Variable jwt_verify : string -> option string -> Z -> Error + Payload.
Variable sha256 : string -> string.
Variable correctPassword : option string -> option string -> bool.
Variable hashPassword : string -> string.
Variable validate : User -> bool.
Variable sendEmail : Mail -> bool.

Import Directory.

(** C1.  A login request that carries a non-empty email
    and a non-empty password, and in which either no
    identity has that email or the Credential Hasher rejects the
    supplied password against the verifier of the identity found,
    ends in one and the same error: status code 401 with the message
    "Incorrect email or password", and the state untouched. *)
Theorem login_failures_indistinguishable
    (env : Env) (now : Z) (req : Request) (st : State) (e p : string) :
  body_email req = Some e -> e <> "" ->
  body_password req = Some p -> p <> "" ->
  (forall u, In u (db st) -> email u <> e)
  \/ (exists u, find (by_email (Some e)) (db st) = Some u
                /\ correctPassword (Some p) (password u) = false) ->
  login jwt_sign correctPassword env now req st
  = (Next [AErr (AppError "Incorrect email or password" (Some 401))], st).
Proof.
  intros He Hne Hp Hnp Hfail. unfold login.
  rewrite He, Hp. simpl.
  apply String.eqb_neq in Hne. apply String.eqb_neq in Hnp.
  rewrite Hne, Hnp. simpl.
  unfold findOne_select_password.
  destruct Hfail as [Hnone | [u [Hu Hbad]]].
  - rewrite find_absent; [reflexivity|].
    intros u Hu. apply not_true_is_false. intros Hq.
    apply by_email_spec in Hq. exact (Hnone u Hu Hq).
  - rewrite Hu, Hbad. reflexivity.
Qed.

(** C7.  The middleware [restrictTo roles], on a request with an
    attached identity, proceeds to the next handler when the
    identity's role is one of [roles], and fails with status 403 when
    it is not; the state is left as it was. *)
Theorem restrictTo_membership
    (roles : list string) (req : Request) (st : State) (u : User) :
  req_user st = Some u ->
  (In (role u) roles -> restrictTo roles req st = (Next [], st))
  /\ (~ In (role u) roles ->
      exists m,
        restrictTo roles req st = (Next [AErr (AppError m (Some 403))], st)).
Proof.
  intros Hu. unfold restrictTo, JS.includes. rewrite Hu. split.
  - intros Hin.
    assert (H : existsb (String.eqb (role u)) roles = true).
    { apply existsb_exists. exists (role u). split; [exact Hin|].
      apply String.eqb_refl. }
    rewrite H. reflexivity.
  - intros Hnin.
    assert (H : existsb (String.eqb (role u)) roles = false).
    { apply not_true_is_false. intros Hex.
      apply existsb_exists in Hex. destruct Hex as [r [Hr Heq]].
      apply String.eqb_eq in Heq. subst r. exact (Hnin Hr). }
    rewrite H. simpl. eexists. reflexivity.
Qed.

(** C9.  When the Authorization header of a request to [protect]
    starts with "Bearer" and has no space in it, so that it has no
    second space-separated part, the extracted token is undefined and
    the request is rejected with the 401 "not logged in" error,
    whatever the [jwt] cookie holds: no token is verified. *)
Theorem protect_bearer_without_token
    (env : Env) (now : Z) (req : Request) (st : State) (h : string) :
  headers_authorization req = Some h ->
  JS.startsWith h "Bearer" = true ->
  JS.occurs " " h = false ->
  protect_token req = inr None
  /\ protect jwt_verify env now req st
     = (Next [AErr (AppError
                      "You are not logged in! Please log in to get access."
                      (Some 401))], st).
Proof.
  intros Hh Hb Hs.
  assert (Ht : protect_token req = inr None).
  { unfold protect_token. rewrite Hh, Hb.
    rewrite (startsWith_nonempty h "Bearer"); [|discriminate|exact Hb].
    simpl. rewrite (split_without_separator h " " Hs). reflexivity. }
  split; [exact Ht|].
  unfold protect. rewrite Ht. reflexivity.
Qed.


(** C5.  What [isLoggedIn] does.  When [req.cookies] is [undefined]
    (no cookie parser ran, as in the application of [src/app.js]), the
    read of [req.cookies.jwt], which stands outside the [try] block,
    throws a TypeError: the handler never calls [next].  When
    [req.cookies] is there, [isLoggedIn] produces no error: it calls
    [next()] without an argument and leaves the collection and
    [req.user] alone; it sets [res.locals.user] to the resolved
    identity when the [jwt] cookie is present and non-empty, verifies,
    refers to an existing identity and is not older than the last
    password change, and in every other case [res.locals.user] stays
    as it was. *)
Theorem isLoggedIn_needs_cookie_parser
    (env : Env) (now : Z) (req : Request) (st : State) :
  let r := isLoggedIn jwt_verify env now req st in
  (cookies req = None -> r = (Thrown TypeError, st))
  /\ (forall jar,
         cookies req = Some jar ->
         fst r = Next []
         /\ db (snd r) = db st
         /\ req_user (snd r) = req_user st
         /\ (forall token decoded u,
                jwt jar = Some token -> token <> "" ->
                jwt_verify token (JWT_SECRET env) now = inr decoded ->
                findById (id decoded) (db st) = Some u ->
                changedPasswordAfter u (iat decoded) = false ->
                locals_user (snd r) = Some u)
         /\ (locals_user (snd r) <> locals_user st ->
             exists token decoded u,
               jwt jar = Some token /\ token <> ""
               /\ jwt_verify token (JWT_SECRET env) now = inr decoded
               /\ findById (id decoded) (db st) = Some u
               /\ changedPasswordAfter u (iat decoded) = false
               /\ locals_user (snd r) = Some u)).
Proof.
  cbv zeta. unfold isLoggedIn, isLoggedIn_token, cookie_token. split.
  { intros H. rewrite H. reflexivity. }
  intros jar Hj. rewrite Hj.
  destruct (jwt jar) as [token|] eqn:Hc; simpl;
    [|solve [repeat split; intros; congruence]].
  destruct (token =? "")%string eqn:Hne; simpl.
  { apply String.eqb_eq in Hne. repeat split; intros; congruence. }
  apply String.eqb_neq in Hne.
  destruct (jwt_verify token (JWT_SECRET env) now) as [err|decoded] eqn:Hv;
    [solve [simpl; repeat split; intros; congruence]|].
  destruct (findById (id decoded) (db st)) as [cu|] eqn:Hf;
    [|solve [simpl; repeat split; intros; congruence]].
  destruct (changedPasswordAfter cu (iat decoded)) eqn:Hch;
    [solve [simpl; repeat split; intros; congruence]|].
  simpl. split; [reflexivity|]. split; [reflexivity|].
  split; [reflexivity|]. split.
  - intros; congruence.
  - intros _. exists token, decoded, cu. repeat split; assumption.
Qed.

(** C8.  Every success response that goes through
    [createSendToken], from [signup], [login], [resetPassword] or
    [updatePassword], carries a user object whose password field is
    undefined. *)
Theorem success_responses_omit_password
    (env : Env) (now : Z) (newId : string) (req : Request)
    (st st' : State) (r : Response) :
  signup jwt_sign hashPassword validate env now newId req st = (Sent r, st')
  \/ login jwt_sign correctPassword env now req st = (Sent r, st')
  \/ resetPassword jwt_sign sha256 hashPassword validate env now req st
     = (Sent r, st')
  \/ updatePassword jwt_sign correctPassword hashPassword validate
       env now req st = (Sent r, st') ->
  exists u, j_user (res_json r) = Some u /\ password u = None.
Proof.
  assert (K : forall user code,
             createSendToken jwt_sign env now user code = Sent r ->
             exists u, j_user (res_json r) = Some u /\ password u = None).
  { intros user code H. apply createSendToken_user in H.
    destruct H as [H _]. eexists. split; [exact H|reflexivity]. }
  intros [H | [H | [H | H]]]; apply catchAsync_sent in H.
  - cbv zeta in H. repeat break_match_in H; try discriminate H.
    apply (f_equal fst) in H; cbn [fst] in H; eapply K; exact H.
  - cbv zeta in H. repeat break_match_in H; try discriminate H.
    apply (f_equal fst) in H; cbn [fst] in H; eapply K; exact H.
  - cbv zeta in H. repeat break_match_in H; try discriminate H.
    apply (f_equal fst) in H; cbn [fst] in H; eapply K; exact H.
  - cbv zeta in H. repeat break_match_in H; try discriminate H.
    apply (f_equal fst) in H; cbn [fst] in H; eapply K; exact H.
Qed.

(** C3 (amended).  [protect] takes the token from the Authorization
    header when the header starts with "Bearer" (the second
    space-separated part, whatever the cookie holds), and from the
    [jwt] cookie when the header is absent or does not start with
    "Bearer".  [isLoggedIn] takes the token from the [jwt] cookie
    alone: two requests with the same cookies get the same result,
    whatever their Authorization headers.  (Reading the cookie of a
    request whose [req.cookies] is [undefined] is a TypeError.) *)
Theorem token_extraction_rules (req : Request) :
  (forall h, headers_authorization req = Some h ->
             JS.startsWith h "Bearer" = true ->
             protect_token req = inr (nth_error (JS.split h " ") 1))
  /\ (headers_authorization req = None
       \/ (exists h, headers_authorization req = Some h
                     /\ JS.startsWith h "Bearer" = false) ->
      protect_token req
      = match cookies req with
        | Some jar => inr (if JS.truthy (jwt jar) then jwt jar else None)
        | None => inl TypeError
        end)
  /\ isLoggedIn_token req
     = match cookies req with
       | Some jar => inr (if JS.truthy (jwt jar) then jwt jar else None)
       | None => inl TypeError
       end
  /\ (forall req' env now st,
         cookies req' = cookies req ->
         isLoggedIn jwt_verify env now req' st
         = isLoggedIn jwt_verify env now req st).
Proof.
  split; [|split; [|split]].
  - intros h Hh Hb. unfold protect_token. rewrite Hh, Hb.
    rewrite (startsWith_nonempty h "Bearer"); [reflexivity|discriminate|exact Hb].
  - intros [Hn | [h [Hh Hb]]]; unfold protect_token, cookie_token.
    + rewrite Hn. reflexivity.
    + rewrite Hh, Hb, andb_false_r. reflexivity.
  - reflexivity.
  - intros req' env now st Hc.
    unfold isLoggedIn, isLoggedIn_token, cookie_token.
    rewrite Hc. reflexivity.
Qed.

(** C4.  When a request carries a token that verifies for an
    identity of the collection, and that identity's password-changed
    timestamp is later than the token's issued-at timestamp, [protect]
    rejects the request with status 401 ("User recently changed
    password! Please log in again.") although the token has not
    expired, and attaches no identity. *)
Theorem protect_rejects_stale_token
    (env : Env) (now : Z) (req : Request) (st : State)
    (token : string) (decoded : Payload) (u : User) (t : Z) :
  protect_token req = inr (Some token) -> token <> "" ->
  jwt_verify token (JWT_SECRET env) now = inr decoded ->
  findById (id decoded) (db st) = Some u ->
  passwordChangedAt u = Some t -> iat decoded < t ->
  protect jwt_verify env now req st
  = (Next [AErr (AppError
                   "User recently changed password! Please log in again."
                   (Some 401))], st).
Proof.
  intros Ht Hne Hv Hf Hc Hlt. unfold protect. rewrite Ht. simpl.
  apply String.eqb_neq in Hne. rewrite Hne. simpl.
  rewrite Hv, Hf. unfold changedPasswordAfter. rewrite Hc.
  apply Z.ltb_lt in Hlt. rewrite Hlt. reflexivity.
Qed.

(** C2.  What [forgotPassword] does for a known email when the
    Notification Dispatcher fails for that address: both reset fields
    of the identity are cleared in the collection, and [next] is
    called with an error built from the message alone, the number 500
    being given to [next] as a second argument, so that the error
    carries no status code. *)
Theorem forgotPassword_delivery_failure
    (now : Z) (raw : string) (req : Request) (st : State)
    (e : string) (u : User) :
  body_email req = Some e ->
  find (by_email (Some e)) (db st) = Some u ->
  (forall m, m_email m = e -> sendEmail m = false) ->
  let r := forgotPassword sha256 hashPassword validate sendEmail
             now raw req st in
  fst r = Next [AErr (AppError
                  "There was an error sending the email. Try again later!"
                  None);
                ANum 500]
  /\ (forall err, error_of (fst r) = Some err -> statusCode_of err = None)
  /\ (forall v, In v (db (snd r)) -> _id v = _id u ->
                passwordResetToken v = None
                /\ passwordResetExpires v = None)
  /\ (exists v, find (by_email (Some e)) (db (snd r)) = Some v
                /\ passwordResetToken v = None
                /\ passwordResetExpires v = None).
Proof.
  intros He Hf Hsend.
  assert (Hu : email u = e).
  { apply find_present in Hf. apply by_email_spec. apply Hf. }
  unfold forgotPassword, findOne. rewrite He, Hf.
  unfold createPasswordResetToken, save, pre_save, project.
  cbn [option_map andb password set_password set_passwordResetToken
       set_passwordResetExpires set_passwordConfirm].
  match goal with
  | |- context [sendEmail ?m] => rewrite (Hsend m Hu)
  end.
  cbn [andb password set_password set_passwordResetToken
       set_passwordResetExpires set_passwordConfirm
       _id name email role passwordConfirm passwordChangedAt
       passwordResetToken passwordResetExpires].
  cbv zeta. cbn [catchAsync fst snd set_db db].
  split; [reflexivity|].
  split; [intros err H; cbn in H; injection H as <-; reflexivity|].
  split.
  - intros v Hv Hid. apply write_same_id in Hv; [|exact Hid].
    destruct Hv as [x [_ ->]].
    destruct (stored_fields
                (mkUser (_id u) (name u) (email u) (role u) None None
                   (passwordChangedAt u) None None) x)
      as (_ & _ & _ & _ & Ht & Hx).
    split; [exact Ht|exact Hx].
  - match goal with
    | |- context [write ?d2 (write ?d1 ?c)] =>
        destruct (find_write_first (by_email (Some e)) d1 c u Hf eq_refl)
          as [x1 [_ H1]];
        [ intros x; apply by_email_spec;
          rewrite (proj1 (proj2 (stored_fields d1 x))); exact Hu
        | destruct (find_write_first (by_email (Some e)) d2 (write d1 c)
                      (stored d1 x1) H1
                      (proj1 (stored_fields d1 x1)))
            as [x2 [_ H2]];
          [ intros x; apply by_email_spec;
            rewrite (proj1 (proj2 (stored_fields d2 x))); exact Hu
          | exists (stored d2 x2); split; [exact H2|];
            destruct (stored_fields d2 x2) as (_ & _ & _ & _ & Ht & Hx);
            split; [exact Ht|exact Hx] ] ]
    end.
Qed.

(** The document [resetPassword] saves: the identity found, with the
    password and its confirmation of the request and no reset
    fields. *)
Let reset_doc (req : Request) (u : User) : User :=
  set_passwordResetExpires None
    (set_passwordResetToken None
       (set_passwordConfirm (body_passwordConfirm req)
          (set_password (body_password req) (project u)))).

Lemma resetPassword_cases (env : Env) (now : Z) (req : Request) (st : State) :
  let r := resetPassword jwt_sign sha256 hashPassword validate env now req st in
  let q := by_reset (sha256 (params_token req)) now in
  (find q (db st) = None
   /\ r = (Next [AErr (AppError "Token is invalid or has expired"
                         (Some 400))], st))
  \/ (exists u, find q (db st) = Some u
                /\ validate (reset_doc req u) = false
                /\ r = (Next [AErr (LibError "ValidationError")], st))
  \/ (exists u, find q (db st) = Some u
                /\ validate (reset_doc req u) = true
                /\ r = catchAsync
                         (createSendToken jwt_sign env now
                            (pre_save hashPassword now (reset_doc req u)) 200,
                          set_db (write
                                    (pre_save hashPassword now
                                       (reset_doc req u))
                                    (db st)) st)).
Proof.
  cbv zeta. unfold resetPassword, findOne.
  destruct (find (by_reset (sha256 (params_token req)) now) (db st))
    as [u|] eqn:Hf; cbn [option_map].
  - right. unfold save. fold (reset_doc req u).
    destruct (validate (reset_doc req u)) eqn:Hv; cbn [andb negb].
    + right. exists u. auto.
    + left. exists u. auto.
  - left. auto.
Qed.

Lemma pre_save_fields (now : Z) (d : User) :
  _id (pre_save hashPassword now d) = _id d
  /\ passwordResetToken (pre_save hashPassword now d) = passwordResetToken d
  /\ passwordResetExpires (pre_save hashPassword now d)
     = passwordResetExpires d
  /\ password (pre_save hashPassword now d)
     = option_map hashPassword (password d).
Proof.
  unfold pre_save.
  destruct (password d) eqn:E; simpl; rewrite ?E; repeat split.
Qed.

(** C6.  [resetPassword] fails with status 400 exactly when no
    identity of the collection stores the hash of the supplied raw
    token with an expiry still in the future.  When it succeeds, it
    answers 200 with a new token for the identity found, and that
    identity is stored with the new password as its verifier and with
    both reset fields cleared; so, a reset hash standing for one
    identity, any later [resetPassword] with the same raw value fails
    with status 400. *)
Theorem resetPassword_single_use
    (env : Env) (now : Z) (req : Request) (st : State) :
  let h := sha256 (params_token req) in
  let r := resetPassword jwt_sign sha256 hashPassword validate
             env now req st in
  ((exists m, fst r = Next [AErr (AppError m (Some 400))])
   <-> (forall u, In u (db st) -> ~ active_reset h now u))
  /\ (forall resp,
         fst r = Sent resp ->
         exists u,
           In u (db st) /\ active_reset h now u
           /\ res_status resp = 200
           /\ (exists token,
                  signToken jwt_sign env now (_id u) = inr token
                  /\ j_token (res_json resp) = Some token)
           /\ (forall v, In v (db (snd r)) -> _id v = _id u ->
                         passwordResetToken v = None
                         /\ passwordResetExpires v = None
                         /\ (forall p, body_password req = Some p ->
                                       password v = Some (hashPassword p)))
           /\ (reset_hash_unique (db st) ->
               forall env' now' req',
                 params_token req' = params_token req ->
                 resetPassword jwt_sign sha256 hashPassword validate
                   env' now' req' (snd r)
                 = (Next [AErr (AppError "Token is invalid or has expired"
                                  (Some 400))], snd r))).
Proof.
  cbv zeta.
  destruct (resetPassword_cases env now req st)
    as [[Hf ->] | [[u [Hf [Hv ->]]] | [u [Hf [Hv ->]]]]]; cbn [fst snd].
  - split.
    + split.
      * intros _ u Hu Ha. apply by_reset_spec in Ha.
        rewrite (find_none _ _ Hf u Hu) in Ha. discriminate Ha.
      * intros _. eexists. reflexivity.
    + intros resp H. discriminate H.
  - split.
    + split.
      * intros [m H]. discriminate H.
      * intros Hno. apply find_present in Hf. destruct Hf as [Hu Hq].
        apply by_reset_spec in Hq. destruct (Hno u Hu Hq).
    + intros resp H. discriminate H.
  - set (d := pre_save hashPassword now (reset_doc req u)) in *.
    rewrite catchAsync_snd. cbn [snd]. split.
    + split.
      * intros [m H]. exfalso.
        destruct (createSendToken_outcome jwt_sign env now d 200)
          as [[r E] | [(n & _ & E) | (tk & _ & _ & E)]];
          rewrite E in H; discriminate H.
      * intros Hno. apply find_present in Hf. destruct Hf as [Hu Hq].
        apply by_reset_spec in Hq. destruct (Hno u Hu Hq).
    + intros resp H. apply catchAsync_fst_sent in H. cbn [fst] in H.
      apply createSendToken_user in H.
      destruct H as (_ & Hs & token & c & Ht & _ & Hj & _).
      destruct (find_present _ _ _ Hf) as [Hu Hq].
      pose proof (proj1 (by_reset_spec _ _ _) Hq) as Ha.
      destruct (pre_save_fields now (reset_doc req u))
        as (Did & Dt & Dx & Dp). fold d in Did, Dt, Dx, Dp.
      cbn in Did, Dt, Dx, Dp.
      exists u. split; [exact Hu|]. split; [exact Ha|].
      split; [exact Hs|].
      split; [exists token; rewrite <- Did; auto|].
      split.
      * intros v Hv' Hid. cbn [set_db db] in Hv'.
        apply write_same_id in Hv'; [|congruence].
        destruct Hv' as [x [_ ->]].
        destruct (stored_fields d x) as (_ & _ & _ & _ & St & Sx).
        split; [congruence|]. split; [congruence|].
        intros p Hp. apply stored_password. rewrite Dp, Hp. reflexivity.
      * intros Huniq env' now' req' Htok.
        destruct (resetPassword_cases env' now' req'
                    (set_db (write d (db st)) st))
          as [[_ ->] | [[w [Hw _]] | [w [Hw _]]]]; [reflexivity| |];
          exfalso; rewrite Htok in Hw;
          apply find_present in Hw; destruct Hw as [Hin Hqw];
          cbn [set_db db] in Hin;
          apply by_reset_spec in Hqw; destruct Hqw as [Hwt _];
          apply write_in in Hin;
          destruct Hin as [[x [_ [_ ->]]] | [Hin Hne]].
        -- destruct (stored_fields d x) as (_ & _ & _ & _ & St & _).
           congruence.
        -- apply Hne. rewrite Did.
           apply (Huniq w u _ Hin Hu Hwt (proj1 Ha)).
        -- destruct (stored_fields d x) as (_ & _ & _ & _ & St & _).
           congruence.
        -- apply Hne. rewrite Did.
           apply (Huniq w u _ Hin Hu Hwt (proj1 Ha)).
Qed.

End Properties.

(** ** The handlers on the sample data *)

Lemma sample_reset_hash_unique : reset_hash_unique Sample.users.
Proof.
  intros a b h Ha Hb Hta Htb. simpl in Ha, Hb.
  destruct Ha as [<-|[<-|[]]], Hb as [<-|[<-|[]]];
    try reflexivity; discriminate.
Defined.

(** An unknown email and a wrong password for a known email get the
    same answer. *)
Lemma login_failures_indistinguishable_witness :
  login Sample.sign Sample.correct Sample.env 0
    (Sample.with_login (Some "ghost@example.com") (Some "alicepass"))
    Sample.state
  = login Sample.sign Sample.correct Sample.env 0
      (Sample.with_login (Some "alice@example.com") (Some "wrong"))
      Sample.state.
Proof.
  rewrite (login_failures_indistinguishable Sample.sign Sample.correct
             Sample.env 0
             (Sample.with_login (Some "ghost@example.com") (Some "alicepass"))
             Sample.state "ghost@example.com" "alicepass"
             eq_refl ltac:(discriminate) eq_refl ltac:(discriminate)).
  - rewrite (login_failures_indistinguishable Sample.sign Sample.correct
               Sample.env 0
               (Sample.with_login (Some "alice@example.com") (Some "wrong"))
               Sample.state "alice@example.com" "wrong"
               eq_refl ltac:(discriminate) eq_refl ltac:(discriminate)).
    + reflexivity.
    + right. exists Sample.alice. split; reflexivity.
  - left. intros u Hu. simpl in Hu.
    destruct Hu as [<-|[<-|[]]]; discriminate.
Defined.

Lemma restrictTo_membership_witness :
  restrictTo ["admin"; "lead-guide"] Sample.request
    (mkState Sample.users (Some Sample.alice) None)
  = (Next [], mkState Sample.users (Some Sample.alice) None)
  /\ exists m,
       restrictTo ["admin"; "lead-guide"] Sample.request
         (mkState Sample.users (Some Sample.bob) None)
       = (Next [AErr (AppError m (Some 403))],
          mkState Sample.users (Some Sample.bob) None).
Proof.
  split.
  - apply (restrictTo_membership ["admin"; "lead-guide"] Sample.request
             (mkState Sample.users (Some Sample.alice) None) Sample.alice
             eq_refl).
    simpl. auto.
  - apply (restrictTo_membership ["admin"; "lead-guide"] Sample.request
             (mkState Sample.users (Some Sample.bob) None) Sample.bob
             eq_refl).
    simpl. intros [H|[H|[]]]; discriminate H.
Defined.

Lemma protect_bearer_without_token_witness :
  protect Sample.verify Sample.env 2000
    (Sample.with_auth (Some "Bearer") (Some "u1")) Sample.state
  = (Next [AErr (AppError
                   "You are not logged in! Please log in to get access."
                   (Some 401))], Sample.state).
Proof.
  apply (protect_bearer_without_token Sample.verify Sample.env 2000
           (Sample.with_auth (Some "Bearer") (Some "u1")) Sample.state
           "Bearer" eq_refl eq_refl eq_refl).
Defined.


(** On a request whose cookies were not parsed [isLoggedIn] throws; on
    one with a cookie that does not verify it goes on, and with a
    valid cookie it puts the identity in [res.locals.user]. *)
Lemma isLoggedIn_needs_cookie_parser_witness :
  isLoggedIn Sample.verify Sample.env 2000 (Sample.unparsed None)
    Sample.state = (Thrown TypeError, Sample.state)
  /\ fst (isLoggedIn Sample.verify Sample.env 2000
            (Sample.with_auth None (Some "garbage")) Sample.state) = Next []
  /\ locals_user (snd (isLoggedIn Sample.verify Sample.env 2000
                         (Sample.with_auth None (Some "u1")) Sample.state))
     = Some (Directory.project Sample.alice).
Proof.
  split; [|split].
  - apply (proj1 (isLoggedIn_needs_cookie_parser Sample.verify Sample.env
                    2000 (Sample.unparsed None) Sample.state)).
    reflexivity.
  - apply (proj2 (isLoggedIn_needs_cookie_parser Sample.verify Sample.env
                    2000 (Sample.with_auth None (Some "garbage"))
                    Sample.state) (mkJar (Some "garbage")) eq_refl).
  - apply (proj2 (isLoggedIn_needs_cookie_parser Sample.verify Sample.env
                    2000 (Sample.with_auth None (Some "u1")) Sample.state)
             (mkJar (Some "u1")) eq_refl)
      with (token := "u1") (decoded := mkPayload "u1" 1000 9000);
      try reflexivity.
    discriminate.
Defined.

Lemma success_responses_omit_password_witness :
  exists r st' u,
    login Sample.sign Sample.correct Sample.env 0
      (Sample.with_login (Some "alice@example.com") (Some "alicepass"))
      Sample.state = (Sent r, st')
    /\ j_user (res_json r) = Some u /\ password u = None.
Proof.
  eexists. eexists.
  assert (H : login Sample.sign Sample.correct Sample.env 0
                (Sample.with_login (Some "alice@example.com")
                   (Some "alicepass"))
                Sample.state
              = (Sent (mkResponse
                         (Some (mkCookie "jwt" "u1" 7776000000 true
                                  (Some true)))
                         200
                         (mkJson "success" (Some "u1") None
                            (Some (Directory.project Sample.alice)))),
                 Sample.state)) by reflexivity.
  destruct (success_responses_omit_password Sample.sign Sample.digest
              Sample.correct Sample.digest Sample.valid Sample.env 0 "u9"
              _ Sample.state _ _ (or_intror (or_introl H))) as [u Hu].
  exists u. split; [exact H|exact Hu].
Defined.

(** C3, refuted as stated: for a request with the header "Bearer u1"
    and no cookie, [protect] extracts the token and attaches the
    identity, and [isLoggedIn] sees no token and attaches nothing. *)
Lemma isLoggedIn_ignores_authorization_header :
  protect_token Sample.bearer_only = inr (Some "u1")
  /\ isLoggedIn_token Sample.bearer_only = inr None
  /\ isLoggedIn_token Sample.bearer_only <> protect_token Sample.bearer_only
  /\ locals_user (snd (protect Sample.verify Sample.env 2000
                         Sample.bearer_only Sample.state))
     = Some (Directory.project Sample.alice)
  /\ locals_user (snd (isLoggedIn Sample.verify Sample.env 2000
                         Sample.bearer_only Sample.state))
     = None.
Proof.
  split; [reflexivity|]. split; [reflexivity|].
  split; [discriminate|]. split; reflexivity.
Qed.

Lemma token_extraction_rules_witness :
  protect_token (Sample.with_auth (Some "Bearer u1") (Some "u2"))
  = inr (Some "u1")
  /\ protect_token (Sample.with_auth (Some "Basic abc") (Some "u2"))
     = inr (Some "u2")
  /\ isLoggedIn Sample.verify Sample.env 2000
       (Sample.with_auth (Some "Bearer u1") (Some "u2")) Sample.state
     = isLoggedIn Sample.verify Sample.env 2000
         (Sample.with_auth None (Some "u2")) Sample.state.
Proof.
  split; [|split].
  - apply (proj1 (token_extraction_rules Sample.verify
                    (Sample.with_auth (Some "Bearer u1") (Some "u2")))
             "Bearer u1" eq_refl eq_refl).
  - apply (proj1 (proj2 (token_extraction_rules Sample.verify
                           (Sample.with_auth (Some "Basic abc") (Some "u2"))))).
    right. exists "Basic abc". split; reflexivity.
  - apply (proj2 (proj2 (proj2 (token_extraction_rules Sample.verify
                                  (Sample.with_auth None (Some "u2")))))).
    reflexivity.
Defined.

Lemma protect_rejects_stale_token_witness :
  protect Sample.verify Sample.env 2000
    (Sample.with_auth (Some "Bearer u2") None) Sample.state
  = (Next [AErr (AppError
                   "User recently changed password! Please log in again."
                   (Some 401))], Sample.state).
Proof.
  apply (protect_rejects_stale_token Sample.verify Sample.env 2000
           (Sample.with_auth (Some "Bearer u2") None) Sample.state
           "u2" (mkPayload "u2" 1000 9000) (Directory.project Sample.bob) 5000);
    try reflexivity.
  discriminate.
Defined.

Lemma forgotPassword_delivery_failure_witness :
  fst (forgotPassword Sample.digest Sample.digest Sample.valid
         Sample.mailer_down 1000 "raw2"
         (Sample.with_login (Some "bob@example.com") None) Sample.state)
  = Next [AErr (AppError
                  "There was an error sending the email. Try again later!"
                  None);
          ANum 500].
Proof.
  apply (forgotPassword_delivery_failure Sample.digest Sample.digest
           Sample.valid Sample.mailer_down 1000 "raw2"
           (Sample.with_login (Some "bob@example.com") None) Sample.state
           "bob@example.com" Sample.bob eq_refl eq_refl).
  intros m _. reflexivity.
Defined.

Lemma resetPassword_single_use_witness :
  resetPassword Sample.sign Sample.digest Sample.digest Sample.valid
    Sample.env 2000
    (Sample.with_reset "raw1" (Some "another1") (Some "another1"))
    (snd (resetPassword Sample.sign Sample.digest Sample.digest Sample.valid
            Sample.env 1000
            (Sample.with_reset "raw1" (Some "newpass1") (Some "newpass1"))
            Sample.state))
  = (Next [AErr (AppError "Token is invalid or has expired" (Some 400))],
     snd (resetPassword Sample.sign Sample.digest Sample.digest Sample.valid
            Sample.env 1000
            (Sample.with_reset "raw1" (Some "newpass1") (Some "newpass1"))
            Sample.state)).
Proof.
  destruct (resetPassword_single_use Sample.sign Sample.digest Sample.digest
              Sample.valid Sample.env 1000
              (Sample.with_reset "raw1" (Some "newpass1") (Some "newpass1"))
              Sample.state) as [_ H].
  destruct (H _ eq_refl) as [u (_ & _ & _ & _ & _ & Hsingle)].
  apply Hsingle; [exact sample_reset_hash_unique|reflexivity].
Defined.

(** ** Further properties of the handlers *)

Lemma truthy_spec (v : option string) :
  JS.truthy v = true <-> exists s, v = Some s /\ s <> "".
Proof.
  unfold JS.truthy. destruct v as [s|].
  - rewrite negb_true_iff, String.eqb_neq. split.
    + intros H. exists s. auto.
    + intros [s' [E H]]. injection E as ->. exact H.
  - split; [discriminate|]. intros [s [E _]]. discriminate E.
Qed.

Lemma split_prefix (a b : string) (c : ascii) :
  JS.occurs c a = false ->
  JS.split (a ++ String c b) c = a :: JS.split b c.
Proof.
  induction a as [|x a IH]; simpl; intros H.
  - rewrite Ascii.eqb_refl. reflexivity.
  - apply orb_false_elim in H. destruct H as [Hx Ha].
    rewrite Hx, (IH Ha). reflexivity.
Qed.

Lemma startsWith_append (a b p : string) :
  JS.startsWith a p = true -> JS.startsWith (a ++ b) p = true.
Proof.
  unfold JS.startsWith. revert a.
  induction p as [|x p IH]; intros a H.
  - destruct a; simpl; [destruct b|]; reflexivity.
  - destruct a as [|y a]; [discriminate H|]. simpl in *.
    destruct (ascii_dec x y); [|discriminate H]. apply IH. exact H.
Qed.

Section Coverage.

Variable jwt_sign : string -> option string -> option string -> Z
                    -> string + string.
Variable jwt_verify : string -> option string -> Z -> Error + Payload.
Variable sha256 : string -> string.
Variable correctPassword : option string -> option string -> bool.
Variable hashPassword : string -> string.
Variable validate : User -> bool.
Variable sendEmail : Mail -> bool.

Import Directory.

(** X1.  [login] answers 400 "Please provide email and password!"
    exactly when the email or the password of the body is missing or
    empty; the collection and the hasher are not consulted then. *)
Theorem login_presence_guard
    (env : Env) (now : Z) (req : Request) (st : State) :
  login jwt_sign correctPassword env now req st
  = (Next [AErr (AppError "Please provide email and password!" (Some 400))],
     st)
  <-> (JS.truthy (body_email req) = false
       \/ JS.truthy (body_password req) = false).
Proof.
  unfold login. split.
  - intros H.
    destruct (JS.truthy (body_email req)); [|auto].
    destruct (JS.truthy (body_password req)); [|auto].
    exfalso. cbn [negb orb] in H.
    destruct (findOne_select_password (by_email (body_email req)) (db st));
      [destruct (correctPassword (body_password req) (password u))|];
      try discriminate H.
    cbn [negb] in H.
    destruct (createSendToken_outcome jwt_sign env now u 200)
      as [[r E] | [(n & _ & E) | (tk & _ & _ & E)]];
      rewrite E in H; discriminate H.
  - intros [H|H]; rewrite H; [|rewrite orb_true_r]; reflexivity.
Qed.


(** X3.  [login] with valid credentials: for a non-empty email and
    password, when the first identity with that email passes the
    Credential Hasher, [login] ends as [createSendToken] does and
    leaves the state unchanged: it answers 200 with the token and the
    user without password when a token is signed and the cookie date
    is valid; when [jwt.sign] throws, that error goes to [next] and no
    response is sent, and so does the TypeError of an invalid cookie
    date. *)
Theorem login_with_valid_credentials
    (env : Env) (now : Z) (req : Request) (st : State)
    (e p : string) (u : User) :
  body_email req = Some e -> e <> "" ->
  body_password req = Some p -> p <> "" ->
  find (by_email (Some e)) (db st) = Some u ->
  correctPassword (Some p) (password u) = true ->
  (forall token c,
      jwt_sign (_id u) (JWT_SECRET env) (JWT_EXPIRES_IN env) now = inr token ->
      cookieOptions env now token = Some c ->
      login jwt_sign correctPassword env now req st
      = (Sent (mkResponse (Some c) 200
                 (mkJson "success" (Some token) None
                    (Some (set_password None u)))), st))
  /\ (forall n,
         jwt_sign (_id u) (JWT_SECRET env) (JWT_EXPIRES_IN env) now = inl n ->
         login jwt_sign correctPassword env now req st
         = (Next [AErr (LibError n)], st))
  /\ (forall token,
         jwt_sign (_id u) (JWT_SECRET env) (JWT_EXPIRES_IN env) now = inr token ->
         cookieOptions env now token = None ->
         login jwt_sign correctPassword env now req st
         = (Next [AErr TypeError], st)).
Proof.
  intros He Hne Hp Hnp Hf Hc.
  assert (E : login jwt_sign correctPassword env now req st
              = catchAsync (createSendToken jwt_sign env now u 200, st)).
  { unfold login. rewrite He, Hp. cbn [JS.truthy].
    apply String.eqb_neq in Hne. apply String.eqb_neq in Hnp.
    rewrite Hne, Hnp. cbn [negb orb].
    unfold findOne_select_password. rewrite Hf, Hc. reflexivity. }
  rewrite E. unfold createSendToken, signToken.
  split; [|split].
  - intros token c Ht Hk. rewrite Ht, Hk. reflexivity.
  - intros n Ht. rewrite Ht. reflexivity.
  - intros token Ht Hk. rewrite Ht, Hk. reflexivity.
Qed.

(** X4.  Every response of [createSendToken] has the status code it
    was given; its [jwt] cookie holds the very token of the body, is
    httpOnly, and has the secure flag exactly in a production
    configuration.  When [jwt.sign] throws, [createSendToken] throws
    that error and sets no cookie. *)
Theorem createSendToken_cookie
    (env : Env) (now : Z) (user : User) (statusCode : Z) :
  (forall r,
      createSendToken jwt_sign env now user statusCode = Sent r ->
      res_status r = statusCode
      /\ exists c,
           res_cookie r = Some c
           /\ ck_name c = "jwt"
           /\ j_token (res_json r) = Some (ck_value c)
           /\ ck_httpOnly c = true
           /\ (ck_secure c = Some true <-> NODE_ENV env = Some "production")
           /\ (ck_secure c = None <-> NODE_ENV env <> Some "production"))
  /\ (forall n,
         jwt_sign (_id user) (JWT_SECRET env) (JWT_EXPIRES_IN env) now = inl n ->
         createSendToken jwt_sign env now user statusCode
         = Thrown (LibError n)).
Proof.
  split.
  - intros r H. apply createSendToken_user in H.
    destruct H as (_ & Hs & token & c & _ & Hc & Hj & Hr).
    split; [exact Hs|]. exists c. split; [exact Hr|].
    unfold cookieOptions in Hc.
    destruct (new_Date _) as [t|]; [|discriminate Hc].
    injection Hc as <-. cbn [ck_name ck_value ck_httpOnly ck_secure].
    split; [reflexivity|]. split; [exact Hj|]. split; [reflexivity|].
    destruct (NODE_ENV env) as [m|];
      [|split; split; intros H; congruence].
    destruct (m =? "production")%string eqn:Hm.
    + apply String.eqb_eq in Hm. split; split; intros H; congruence.
    + apply String.eqb_neq in Hm. split; split; intros H; congruence.
  - intros n H. unfold createSendToken, signToken. rewrite H. reflexivity.
Qed.

(** The ways through [protect]. *)
Lemma protect_cases (env : Env) (now : Z) (req : Request) (st : State) :
  let r := protect jwt_verify env now req st in
  (exists e, protect_token req = inl e /\ r = (Next [AErr e], st))
  \/ (exists t,
        protect_token req = inr t /\ JS.truthy t = false
        /\ r = (Next [AErr (AppError
                             "You are not logged in! Please log in to get access."
                             (Some 401))], st))
  \/ (exists token,
        protect_token req = inr (Some token) /\ token <> ""
        /\ ((exists e, jwt_verify token (JWT_SECRET env) now = inl e
                       /\ r = (Next [AErr e], st))
            \/ (exists d,
                  jwt_verify token (JWT_SECRET env) now = inr d
                  /\ ((findById (id d) (db st) = None
                       /\ r = (Next [AErr (AppError
                            "The user belonging to this token does no longer exist."
                            (Some 401))], st))
                      \/ (exists u,
                            findById (id d) (db st) = Some u
                            /\ ((changedPasswordAfter u (iat d) = true
                                 /\ r = (Next [AErr (AppError
                                    "User recently changed password! Please log in again."
                                    (Some 401))], st))
                                \/ (changedPasswordAfter u (iat d) = false
                                    /\ r = (Next [],
                                            mkState (db st) (Some u)
                                              (Some u))))))))).
Proof.
  cbv zeta. unfold protect.
  destruct (protect_token req) as [e|t] eqn:Hk.
  { left. exists e. auto. }
  destruct (JS.truthy t) eqn:Ht; cbn [negb].
  2:{ right. left. exists t. auto. }
  apply truthy_spec in Ht. destruct Ht as [token [-> Hne]].
  right. right. exists token. split; [reflexivity|]. split; [exact Hne|].
  destruct (jwt_verify token (JWT_SECRET env) now) as [e|d] eqn:Hv.
  { left. exists e. auto. }
  right. exists d. split; [reflexivity|].
  destruct (findById (id d) (db st)) as [cu|] eqn:Hf; [|left; auto].
  right. exists cu. split; [reflexivity|].
  destruct (changedPasswordAfter cu (iat d)) eqn:Hc; [left|right]; auto.
Qed.

(** X5.  [protect] lets a request through exactly when it carries a
    non-empty token that verifies, refers to an identity of the
    collection and is not older than that identity's last password
    change; it then attaches this identity both to [req.user] and to
    [res.locals.user] and leaves the collection as it was. *)
Theorem protect_grants_iff
    (env : Env) (now : Z) (req : Request) (st : State) :
  fst (protect jwt_verify env now req st) = Next []
  <-> exists token decoded u,
        protect_token req = inr (Some token) /\ token <> ""
        /\ jwt_verify token (JWT_SECRET env) now = inr decoded
        /\ findById (id decoded) (db st) = Some u
        /\ changedPasswordAfter u (iat decoded) = false
        /\ snd (protect jwt_verify env now req st)
           = mkState (db st) (Some u) (Some u).
Proof.
  destruct (protect_cases env now req st)
    as [(e & Hk & E) | [(t & Hk & Ht & E) | (token & Hk & Hne &
         [(e & Hv & E) | (d & Hv &
         [[Hf E] | (u & Hf & [[Hc E] | [Hc E]])])])]];
    rewrite E; cbn [fst snd].
  - split; [discriminate|]. intros (t' & d & u & Hk' & _). congruence.
  - split; [discriminate|]. intros (t' & d & u & Hk' & Hne & _).
    rewrite Hk in Hk'. injection Hk' as ->. cbn in Ht.
    apply String.eqb_neq in Hne. rewrite Hne in Ht. discriminate Ht.
  - split; [discriminate|]. intros (t' & d & u & Hk' & _ & Hv' & _).
    congruence.
  - split; [discriminate|]. intros (t' & d' & u & Hk' & _ & Hv' & Hf' & _).
    rewrite Hk in Hk'. injection Hk' as <-.
    rewrite Hv in Hv'. injection Hv' as <-. congruence.
  - split; [discriminate|].
    intros (t' & d' & u' & Hk' & _ & Hv' & Hf' & Hc' & _).
    rewrite Hk in Hk'. injection Hk' as <-.
    rewrite Hv in Hv'. injection Hv' as <-.
    rewrite Hf in Hf'. injection Hf' as <-. congruence.
  - split; [|reflexivity].
    intros _. exists token, d, u. repeat split; assumption.
Qed.

(** X6.  When [protect] does not let a request through, it has called
    [next] with exactly one error and changed nothing; the error is one
    of the handler's own, with status code 401, or the error thrown by
    the verification of the token, or the TypeError of reading
    [req.cookies.jwt] on a request whose cookies were not parsed and
    that has no Authorization header starting with "Bearer".
    [protect] never sends a response itself. *)
Theorem protect_rejections
    (env : Env) (now : Z) (req : Request) (st : State) :
  fst (protect jwt_verify env now req st) <> Next [] ->
  snd (protect jwt_verify env now req st) = st
  /\ exists e,
       fst (protect jwt_verify env now req st) = Next [AErr e]
       /\ ((exists m, e = AppError m (Some 401))
           \/ (exists token,
                  protect_token req = inr (Some token)
                  /\ jwt_verify token (JWT_SECRET env) now = inl e)
           \/ (e = TypeError /\ cookies req = None
               /\ protect_token req = inl TypeError)).
Proof.
  destruct (protect_cases env now req st)
    as [(e & Hk & E) | [(t & Hk & Ht & E) | (token & Hk & Hne &
         [(e & Hv & E) | (d & Hv &
         [[Hf E] | (u & Hf & [[Hc E] | [Hc E]])])])]];
    rewrite E; cbn [fst snd]; intros H;
    try (split; [reflexivity|]; eexists; split; [reflexivity|];
         left; eexists; reflexivity).
  - split; [reflexivity|]. exists e. split; [reflexivity|].
    right. right.
    assert (Hc : cookie_token req = inl e).
    { unfold protect_token in Hk.
      destruct (headers_authorization req) as [h|]; [|exact Hk].
      destruct (JS.truthy (Some h) && JS.startsWith h "Bearer");
        [discriminate Hk|exact Hk]. }
    unfold cookie_token in Hc.
    destruct (cookies req) as [jar|]; [discriminate Hc|].
    injection Hc as <-. rewrite Hk. auto.
  - split; [reflexivity|]. exists e. split; [reflexivity|].
    right. left. exists token. auto.
  - exfalso. apply H. reflexivity.
Qed.

(** X7.  [restrictTo] reads [req.user.role] without a test: with no
    identity attached it throws a TypeError, for every list of roles.
    After a [protect] that let the request through this cannot happen:
    [restrictTo] then lets the request through exactly when the role of
    the identity resolved from the token is one of the roles, and
    answers 403 otherwise. *)
Theorem protect_then_restrictTo
    (env : Env) (now : Z) (req : Request) (st : State) (roles : list string) :
  (req_user st = None -> restrictTo roles req st = (Thrown TypeError, st))
  /\ (fst (protect jwt_verify env now req st) = Next [] ->
      let st1 := snd (protect jwt_verify env now req st) in
      exists u,
        req_user st1 = Some u
        /\ (In (role u) roles -> restrictTo roles req st1 = (Next [], st1))
        /\ (~ In (role u) roles ->
            restrictTo roles req st1
            = (Next [AErr (AppError
                             "You do not have permission to perform this action"
                             (Some 403))], st1))).
Proof.
  split.
  - intros H. unfold restrictTo. rewrite H. reflexivity.
  - intros H. cbv zeta.
    destruct (protect_cases env now req st)
      as [(e0 & _ & E) | [(t0 & _ & _ & E) | (token & _ & _ &
                   [(e & _ & E) | (d & _ &
                   [[_ E] | (u & _ & [[_ E] | [_ E]])])])]];
      rewrite E in H |- *; try discriminate H.
    cbn [snd]. exists u. split; [reflexivity|].
    unfold restrictTo, JS.includes. cbn [req_user].
    destruct (existsb (String.eqb (role u)) roles) eqn:Hex.
    + split; [reflexivity|]. intros Hn. exfalso. apply Hn.
      apply existsb_exists in Hex. destruct Hex as [x [Hx Hr]].
      apply String.eqb_eq in Hr. subst x. exact Hx.
    + split; [|reflexivity]. intros Hin.
      assert (Hex' : existsb (String.eqb (role u)) roles = true).
      { apply existsb_exists. exists (role u). split; [exact Hin|].
        apply String.eqb_refl. }
      congruence.
Qed.

(** The three ways through [forgotPassword]. *)
Lemma forgotPassword_cases (now : Z) (raw : string) (req : Request)
    (st : State) :
  let r := forgotPassword sha256 hashPassword validate sendEmail
             now raw req st in
  (find (by_email (body_email req)) (db st) = None
   /\ r = (Next [AErr (AppError "There is no user with email address."
                         (Some 404))], st))
  \/ (exists u,
        find (by_email (body_email req)) (db st) = Some u
        /\ (fst r = Sent (mkResponse None 200
                            (mkJson "success" None
                               (Some "Token sent to email!") None))
            \/ fst r = Next [AErr (AppError
                          "There was an error sending the email. Try again later!"
                          None);
                            ANum 500])).
Proof.
  cbv zeta. unfold forgotPassword, findOne.
  destruct (find (by_email (body_email req)) (db st)) as [u|] eqn:Hf;
    cbn [option_map]; [|left; auto].
  right. exists u. split; [reflexivity|].
  unfold createPasswordResetToken, save. cbn [andb].
  match goal with
  | |- context [sendEmail ?m] => destruct (sendEmail m)
  end; [left|right]; reflexivity.
Qed.


(** X9.  When [forgotPassword] sends a response, it is the fixed
    answer 200 "Token sent to email!", with no cookie, no token and no
    user in it: the raw reset token leaves the server by mail only. *)
Theorem forgotPassword_response_has_no_token
    (now : Z) (raw : string) (req : Request) (st st' : State) (r : Response) :
  forgotPassword sha256 hashPassword validate sendEmail now raw req st
  = (Sent r, st') ->
  r = mkResponse None 200
        (mkJson "success" None (Some "Token sent to email!") None).
Proof.
  intros H.
  destruct (forgotPassword_cases now raw req st)
    as [[_ E] | (u & _ & [E | E])]; rewrite H in E; cbn [fst] in E.
  - discriminate E.
  - injection E as ->. reflexivity.
  - discriminate E.
Qed.

(** The ways through [updatePassword]. *)
Lemma updatePassword_cases (env : Env) (now : Z) (req : Request) (st : State) :
  let r := updatePassword jwt_sign correctPassword hashPassword validate
             env now req st in
  ((req_user st = None
    \/ exists ru, req_user st = Some ru
                  /\ find (by_id (_id ru)) (db st) = None)
   /\ r = (Next [AErr TypeError], st))
  \/ (exists ru user,
        req_user st = Some ru
        /\ find (by_id (_id ru)) (db st) = Some user
        /\ ((correctPassword (body_passwordCurrent req) (password user) = false
             /\ r = (Next [AErr (AppError "Your current password is wrong."
                                   (Some 401))], st))
            \/ (correctPassword (body_passwordCurrent req) (password user)
                = true
                /\ ((r = (Next [AErr (LibError "ValidationError")], st))
                    \/ (exists doc c,
                          _id doc = _id user
                          /\ r = catchAsync
                                   (createSendToken jwt_sign env now doc 200,
                                    set_db c st)))))).
Proof.
  cbv zeta. unfold updatePassword, findById_select_password,
    findOne_select_password.
  destruct (req_user st) as [ru|] eqn:Hr; [|left; auto].
  destruct (find (by_id (_id ru)) (db st)) as [user|] eqn:Hf.
  2:{ left. split; [|reflexivity]. right. exists ru. auto. }
  right. exists ru, user. split; [reflexivity|]. split; [exact Hf|].
  destruct (correctPassword (body_passwordCurrent req) (password user));
    cbn [negb]; [right|left; auto].
  split; [reflexivity|]. unfold save.
  match goal with
  | |- context [validate ?d] => destruct (validate d)
  end; cbn [andb negb]; [right|left; reflexivity].
  eexists. eexists. split; [|reflexivity].
  unfold pre_save. cbn [password set_password set_passwordConfirm].
  destruct (body_password req); reflexivity.
Qed.

(** X10.  [updatePassword] sends a response only when an identity is
    attached to the request, that identity is still in the collection
    and the Credential Hasher accepted the current password of the body
    against its stored verifier; the answer is then 200 with a token
    signed for that identity. *)
Theorem updatePassword_sent_only_with_current_password
    (env : Env) (now : Z) (req : Request) (st st' : State) (r : Response) :
  updatePassword jwt_sign correctPassword hashPassword validate env now req st
  = (Sent r, st') ->
  exists ru user token,
    req_user st = Some ru
    /\ find (by_id (_id ru)) (db st) = Some user
    /\ correctPassword (body_passwordCurrent req) (password user) = true
    /\ res_status r = 200
    /\ signToken jwt_sign env now (_id user) = inr token
    /\ j_token (res_json r) = Some token.
Proof.
  intros H.
  destruct (updatePassword_cases env now req st)
    as [[_ E] | (ru & user & Hr & Hf & [[_ E] | (Hc & [E | (doc & c & Hd & E)])])];
    rewrite H in E; try discriminate E.
  symmetry in E. apply catchAsync_sent in E.
  apply (f_equal fst) in E. cbn [fst] in E.
  apply createSendToken_user in E.
  destruct E as (_ & Hs & token & ck & Ht & _ & Hj & _).
  exists ru, user, token. rewrite <- Hd. auto 10.
Qed.

(** X11.  [updatePassword] tests neither [req.user] nor the result of
    the lookup: with no identity attached, or with an attached identity
    that is no longer in the collection, a TypeError goes to [next],
    not a status-coded error, and nothing is changed. *)
Theorem updatePassword_without_identity
    (env : Env) (now : Z) (req : Request) (st : State) :
  req_user st = None
  \/ (exists ru, req_user st = Some ru
                 /\ forall u, In u (db st) -> _id u <> _id ru) ->
  updatePassword jwt_sign correctPassword hashPassword validate env now req st
  = (Next [AErr TypeError], st).
Proof.
  intros H. unfold updatePassword, findById_select_password,
    findOne_select_password.
  destruct H as [H | (ru & H & Hno)]; rewrite H; [reflexivity|].
  rewrite find_absent; [reflexivity|].
  intros u Hu. unfold by_id. apply String.eqb_neq. apply Hno. exact Hu.
Qed.

(** X12.  [resetPassword] and [updatePassword] change the state only
    after their checks have passed: the reset token was active
    ([resetPassword]), the current password was accepted
    ([updatePassword]).  A changed state with an error handed to [next]
    occurs in one way only: the document was saved and then no token
    could be issued, the error being the one [jwt.sign] threw or the
    TypeError of the cookie date; after an error of the handler's own
    or a validation error the state is as before. *)
Theorem password_changes_only_after_checks
    (env : Env) (now : Z) (req : Request) (st : State) :
  let r1 := resetPassword jwt_sign sha256 hashPassword validate
              env now req st in
  let r2 := updatePassword jwt_sign correctPassword hashPassword validate
              env now req st in
  (snd r1 = st
   \/ exists u,
        In u (db st)
        /\ active_reset (sha256 (params_token req)) now u
        /\ ((exists resp, fst r1 = Sent resp)
            \/ (exists n,
                  jwt_sign (_id u) (JWT_SECRET env) (JWT_EXPIRES_IN env) now
                  = inl n
                  /\ fst r1 = Next [AErr (LibError n)])
            \/ fst r1 = Next [AErr TypeError]))
  /\ (snd r2 = st
      \/ exists ru user,
           req_user st = Some ru
           /\ find (by_id (_id ru)) (db st) = Some user
           /\ correctPassword (body_passwordCurrent req) (password user)
              = true
           /\ ((exists resp, fst r2 = Sent resp)
               \/ (exists n,
                     jwt_sign (_id user) (JWT_SECRET env) (JWT_EXPIRES_IN env)
                       now = inl n
                     /\ fst r2 = Next [AErr (LibError n)])
               \/ fst r2 = Next [AErr TypeError])).
Proof.
  cbv zeta. split.
  - destruct (resetPassword_cases jwt_sign sha256 hashPassword validate
                env now req st)
      as [[_ ->] | [(u & _ & _ & ->) | (u & Hf & _ & ->)]];
      [left; reflexivity | left; reflexivity | right].
    apply find_present in Hf. destruct Hf as [Hu Hq].
    apply by_reset_spec in Hq.
    exists u. split; [exact Hu|]. split; [exact Hq|].
    match goal with
    | |- context [createSendToken _ _ _ ?d _] =>
        destruct (createSendToken_outcome jwt_sign env now d 200)
          as [[r E] | [(n & Hn & E) | (tk & _ & _ & E)]];
        destruct (pre_save_fields hashPassword now
                    (set_passwordResetExpires None
                       (set_passwordResetToken None
                          (set_passwordConfirm (body_passwordConfirm req)
                             (set_password (body_password req)
                                (project u)))))) as [Did _];
        cbn in Did
    end; rewrite E; cbn [catchAsync fst snd].
    + left. exists r. reflexivity.
    + right. left. exists n. rewrite <- Did. auto.
    + right. right. reflexivity.
  - destruct (updatePassword_cases env now req st)
      as [[_ ->] | (ru & user & Hr & Hf &
                    [[_ ->] | (Hc & [-> | (doc & c & Hd & ->)])])];
      try (left; reflexivity).
    right. exists ru, user.
    split; [exact Hr|]. split; [exact Hf|]. split; [exact Hc|].
    destruct (createSendToken_outcome jwt_sign env now doc 200)
      as [[r E] | [(n & Hn & E) | (tk & _ & _ & E)]];
      rewrite E; cbn [catchAsync fst snd].
    + left. exists r. reflexivity.
    + right. left. exists n. rewrite <- Hd. auto.
    + right. right. reflexivity.
Qed.

(** The token [protect] extracts from a header made of a first piece
    that starts with "Bearer", a space, and a rest: the rest up to its
    first space. *)
Lemma protect_token_second_piece (req : Request) (a b : string) :
  JS.startsWith a "Bearer" = true -> JS.occurs " " a = false ->
  headers_authorization req = Some (a ++ String " " b) ->
  protect_token req = inr (hd_error (JS.split b " ")).
Proof.
  intros Ha Hs Hh. unfold protect_token. rewrite Hh.
  rewrite (startsWith_append a (String " " b) "Bearer" Ha).
  rewrite (startsWith_nonempty (a ++ String " " b) "Bearer");
    [|discriminate|apply startsWith_append; exact Ha].
  cbn [andb]. rewrite (split_prefix a b " " Hs). cbn [nth_error].
  destruct (JS.split b " "); reflexivity.
Qed.

(** X13.  A token without a space in it comes back from the
    Authorization header unchanged: from a header whose first piece
    starts with "Bearer" (it need not be "Bearer" itself), followed by
    a space and the token, [protect] extracts the token, and whatever
    follows a further space is ignored. *)
Theorem protect_token_from_header
    (req : Request) (a t rest : string) :
  JS.startsWith a "Bearer" = true -> JS.occurs " " a = false ->
  JS.occurs " " t = false ->
  headers_authorization req = Some (a ++ " " ++ t)
  \/ headers_authorization req = Some (a ++ " " ++ t ++ " " ++ rest) ->
  protect_token req = inr (Some t).
Proof.
  intros Ha Hs Ht [Hh | Hh].
  - rewrite (protect_token_second_piece req a t Ha Hs Hh).
    rewrite (split_without_separator t " " Ht). reflexivity.
  - rewrite (protect_token_second_piece req a (t ++ " " ++ rest) Ha Hs Hh).
    change (t ++ " " ++ rest) with (t ++ String " " rest).
    rewrite (split_prefix t rest " " Ht). reflexivity.
Qed.

(** X14.  A header that starts with "Bearer" and whose second piece is
    empty (the header ends with its first space, or has two spaces in a
    row there) makes [protect] answer the 401 "not logged in" error,
    whatever the cookie holds and whatever follows. *)
Theorem protect_empty_second_piece
    (env : Env) (now : Z) (req : Request) (st : State) (a rest : string) :
  JS.startsWith a "Bearer" = true -> JS.occurs " " a = false ->
  headers_authorization req = Some (a ++ " ")
  \/ headers_authorization req = Some (a ++ "  " ++ rest) ->
  protect jwt_verify env now req st
  = (Next [AErr (AppError
                   "You are not logged in! Please log in to get access."
                   (Some 401))], st).
Proof.
  intros Ha Hs Hh.
  assert (Hk : protect_token req = inr (Some "")).
  { destruct Hh as [Hh | Hh].
    - rewrite (protect_token_second_piece req a "" Ha Hs Hh). reflexivity.
    - rewrite (protect_token_second_piece req a (String " " rest) Ha Hs Hh).
      cbn. reflexivity. }
  unfold protect. rewrite Hk. reflexivity.
Qed.



(** X16.  After [logout], a request that comes back with the cookie
    [logout] has set (and no Authorization header) is anonymous for
    [isLoggedIn], and is rejected by [protect] with the error the token
    verification throws on the sentinel, not with one of the handler's
    own 401 errors; nothing about the session is kept or changed on
    the server. *)
Theorem logout_then_gates
    (env : Env) (now now' : Z) (req req' : Request) (st : State)
    (r : Response) (c : Cookie) (e : Error) :
  fst (logout now req st) = Sent r -> res_cookie r = Some c ->
  headers_authorization req' = None ->
  cookies req' = Some (mkJar (Some (ck_value c))) ->
  jwt_verify "loggedout" (JWT_SECRET env) now' = inl e ->
  snd (logout now req st) = st
  /\ isLoggedIn jwt_verify env now' req' st = (Next [], st)
  /\ protect jwt_verify env now' req' st = (Next [AErr e], st).
Proof.
  intros Hl Hrc Hh Hc Hv. unfold logout in Hl. cbn [fst] in Hl.
  injection Hl as <-. cbn [res_cookie] in Hrc. injection Hrc as <-.
  cbn [ck_value] in Hc.
  split; [reflexivity|]. split.
  - unfold isLoggedIn, isLoggedIn_token, cookie_token. rewrite Hc. cbn.
    rewrite Hv. reflexivity.
  - unfold protect, protect_token, cookie_token. rewrite Hh, Hc. cbn.
    rewrite Hv. reflexivity.
Qed.

(** X17.  On a request without an Authorization header the two gates
    read the same cookie.  When the cookies were parsed they agree:
    when [protect] lets the request through, [isLoggedIn] puts the same
    identity in [res.locals.user]; when [protect] rejects it,
    [isLoggedIn] goes on without touching the state.  When
    [req.cookies] is [undefined], [protect] hands a TypeError to [next]
    and [isLoggedIn] throws it without calling [next]. *)
Theorem gates_agree_without_header
    (env : Env) (now : Z) (req : Request) (st : State) :
  headers_authorization req = None ->
  (forall jar,
      cookies req = Some jar ->
      (fst (protect jwt_verify env now req st) = Next [] ->
       fst (isLoggedIn jwt_verify env now req st) = Next []
       /\ locals_user (snd (isLoggedIn jwt_verify env now req st))
          = locals_user (snd (protect jwt_verify env now req st)))
      /\ (fst (protect jwt_verify env now req st) <> Next [] ->
          isLoggedIn jwt_verify env now req st = (Next [], st)))
  /\ (cookies req = None ->
      protect jwt_verify env now req st = (Next [AErr TypeError], st)
      /\ isLoggedIn jwt_verify env now req st = (Thrown TypeError, st)).
Proof.
  intros Hh.
  assert (Hk : protect_token req = isLoggedIn_token req).
  { unfold protect_token, isLoggedIn_token. rewrite Hh. reflexivity. }
  split.
  - intros jar Hj. unfold isLoggedIn. rewrite <- Hk.
    destruct (protect_cases env now req st)
      as [(e & Hp & E) | [(t & Hp & Ht & E) | (token & Hp & Hne &
           [(e & Hv & E) | (d & Hv &
           [[Hf E] | (u & Hf & [[Hc E] | [Hc E]])])])]];
      rewrite E, Hp; cbn [fst snd];
      (split; [intros H; try discriminate H | intros H]).
    + exfalso. rewrite Hk in Hp. unfold isLoggedIn_token, cookie_token in Hp.
      rewrite Hj in Hp. discriminate Hp.
    + destruct t as [t|]; [|reflexivity].
      rewrite Hk in Hp. unfold isLoggedIn_token, cookie_token in Hp.
      rewrite Hj in Hp. injection Hp as Hp.
      destruct (JS.truthy (jwt jar)) eqn:Hcj; [|discriminate Hp].
      rewrite Hp in Hcj. congruence.
    + rewrite Hv. reflexivity.
    + rewrite Hv, Hf. reflexivity.
    + rewrite Hv, Hf, Hc. reflexivity.
    + rewrite Hv, Hf, Hc. split; reflexivity.
    + exfalso. apply H. reflexivity.
  - intros Hn. unfold protect, isLoggedIn. rewrite <- Hk.
    unfold protect_token, cookie_token. rewrite Hh, Hn. split; reflexivity.
Qed.

(** X18.  [login], [logout], [protect], [isLoggedIn] and [restrictTo]
    never write the collection, and an identity that [protect] or
    [isLoggedIn] newly puts in [res.locals.user] is a document of the
    collection read without its password. *)
Theorem gates_read_only
    (env : Env) (now : Z) (roles : list string) (req : Request) (st : State) :
  db (snd (login jwt_sign correctPassword env now req st)) = db st
  /\ db (snd (logout now req st)) = db st
  /\ db (snd (protect jwt_verify env now req st)) = db st
  /\ db (snd (isLoggedIn jwt_verify env now req st)) = db st
  /\ db (snd (restrictTo roles req st)) = db st
  /\ (forall u,
         locals_user (snd (protect jwt_verify env now req st)) = Some u ->
         locals_user st = Some u
         \/ exists x, In x (db st) /\ u = project x)
  /\ (forall u,
         locals_user (snd (isLoggedIn jwt_verify env now req st)) = Some u ->
         locals_user st = Some u
         \/ exists x, In x (db st) /\ u = project x).
Proof.
  assert (Hfind : forall i u, findById i (db st) = Some u ->
                              exists x, In x (db st) /\ u = project x).
  { intros i u H. unfold findById, findOne in H.
    destruct (find (by_id i) (db st)) as [x|] eqn:Hx; [|discriminate H].
    injection H as <-. apply find_present in Hx. exists x. tauto. }
  split; [|split; [|split; [|split; [|split; [|split]]]]].
  - unfold login. rewrite catchAsync_snd.
    repeat match goal with
           | |- context [match ?x with _ => _ end] => destruct x
           end; reflexivity.
  - reflexivity.
  - destruct (protect_cases env now req st)
      as [(e0 & _ & E) | [(t0 & _ & _ & E) | (token & _ & _ &
                   [(e & _ & E) | (d & _ &
                   [[_ E] | (u & _ & [[_ E] | [_ E]])])])]];
      rewrite E; reflexivity.
  - unfold isLoggedIn.
    repeat match goal with
           | |- context [match ?x with _ => _ end] => destruct x
           end; reflexivity.
  - unfold restrictTo.
    repeat match goal with
           | |- context [match ?x with _ => _ end] => destruct x
           end; reflexivity.
  - intros v.
    destruct (protect_cases env now req st)
      as [(e0 & _ & E) | [(t0 & _ & _ & E) | (token & _ & _ &
                   [(e & _ & E) | (d & _ &
                   [[_ E] | (u & Hf & [[_ E] | [_ E]])])])]];
      rewrite E; cbn [snd locals_user]; auto.
    intros H. injection H as <-. right. exact (Hfind _ _ Hf).
  - intros v. unfold isLoggedIn.
    destruct (isLoggedIn_token req) as [e|[t|]]; auto.
    destruct (jwt_verify t (JWT_SECRET env) now) as [e|d]; auto.
    destruct (findById (id d) (db st)) as [u|] eqn:Hf; auto.
    destruct (changedPasswordAfter u (iat d)); auto.
    cbn [snd locals_user]. intros H. injection H as <-.
    right. exact (Hfind _ _ Hf).
Qed.

(** X19.  [signup] ends in one of three ways: it answers 201, with a
    cookie that holds the token of the body and a user without
    password; or it hands the error of [User.create] to [next] and
    leaves the state as it was; or the user was created and no token
    could be issued, the error of [createSendToken] going to [next]
    with the new user in the collection.  It never answers with
    another status. *)
Theorem signup_outcomes
    (env : Env) (now : Z) (newId : string) (req : Request) (st : State) :
  let r := signup jwt_sign hashPassword validate env now newId req st in
  let created := create hashPassword validate newId (body_name req)
                   (body_email req) (body_password req)
                   (body_passwordConfirm req) (db st) in
  (exists resp c u,
      fst r = Sent resp /\ res_status resp = 201
      /\ res_cookie resp = Some c
      /\ j_token (res_json resp) = Some (ck_value c)
      /\ j_user (res_json resp) = Some u /\ password u = None)
  \/ (exists e, created = inl e /\ r = (Next [AErr e], st))
  \/ (exists doc c e,
        created = inr (doc, c)
        /\ createSendToken jwt_sign env now doc 201 = Thrown e
        /\ r = (Next [AErr e], set_db c st)).
Proof.
  cbv zeta. unfold signup.
  destruct (create hashPassword validate newId (body_name req)
              (body_email req) (body_password req)
              (body_passwordConfirm req) (db st)) as [e|[doc c]].
  - right. left. exists e. split; reflexivity.
  - destruct (createSendToken jwt_sign env now doc 201) as [resp|a|e] eqn:E.
    + left. apply createSendToken_user in E.
      destruct E as (Hu & Hs & token & ck & _ & Hck & Hj & Hrc).
      exists resp, ck, (set_password None doc).
      cbn [catchAsync fst]. split; [reflexivity|]. split; [exact Hs|].
      split; [exact Hrc|]. split; [|split; [exact Hu|reflexivity]].
      unfold cookieOptions in Hck.
      destruct (new_Date _) as [t|]; [|discriminate Hck].
      injection Hck as <-. exact Hj.
    + exfalso.
      destruct (createSendToken_outcome jwt_sign env now doc 201)
        as [[r E'] | [(n & _ & E') | (tk & _ & _ & E')]];
        rewrite E in E'; discriminate E'.
    + right. right. exists doc, c, e.
      split; [reflexivity|]. split; [exact E|reflexivity].
Qed.

End Coverage.


(** With the signing secret missing, the valid login of the sample
    ends in [next] with the error of [jwt.sign]. *)
Lemma login_with_valid_credentials_witness :
  login Sample.sign Sample.correct Sample.env_no_secret 0 Sample.alice_login
    Sample.state
  = (Next [AErr (LibError "Error")], Sample.state).
Proof.
  apply (proj1 (proj2 (login_with_valid_credentials Sample.sign Sample.correct
                         Sample.env_no_secret 0 Sample.alice_login
                         Sample.state
                         "alice@example.com" "alicepass" Sample.alice
                         eq_refl ltac:(discriminate) eq_refl
                         ltac:(discriminate) eq_refl eq_refl))).
  reflexivity.
Defined.

Lemma protect_rejections_witness :
  snd (protect Sample.verify Sample.env 2000
         (Sample.with_auth None (Some "garbage")) Sample.state)
  = Sample.state
  /\ exists e,
       fst (protect Sample.verify Sample.env 2000 (Sample.unparsed None)
              Sample.state) = Next [AErr e].
Proof.
  split.
  - apply (protect_rejections Sample.verify Sample.env 2000
             (Sample.with_auth None (Some "garbage")) Sample.state).
    discriminate.
  - destruct (protect_rejections Sample.verify Sample.env 2000
                (Sample.unparsed None) Sample.state) as [_ [e [He _]]].
    + discriminate.
    + exists e. exact He.
Defined.

Lemma forgotPassword_response_has_no_token_witness :
  exists r,
    fst (forgotPassword Sample.digest Sample.digest Sample.valid
           Sample.mailer_up 1000 "raw2"
           (Sample.with_login (Some "bob@example.com") None) Sample.state)
    = Sent r
    /\ j_token (res_json r) = None.
Proof.
  eexists. split; [reflexivity|].
  match goal with
  | |- j_token (res_json ?r) = _ =>
      exact (f_equal (fun x => j_token (res_json x))
               (forgotPassword_response_has_no_token Sample.digest
                  Sample.digest Sample.valid Sample.mailer_up 1000 "raw2"
                  (Sample.with_login (Some "bob@example.com") None)
                  Sample.state
                  (snd (forgotPassword Sample.digest Sample.digest
                          Sample.valid Sample.mailer_up 1000 "raw2"
                          (Sample.with_login (Some "bob@example.com") None)
                          Sample.state))
                  r eq_refl))
  end.
Defined.

Lemma updatePassword_sent_only_with_current_password_witness :
  exists r,
    fst (updatePassword Sample.sign Sample.correct Sample.digest Sample.valid
           Sample.env 3000 Sample.alice_update Sample.alice_attached)
    = Sent r
    /\ res_status r = 200.
Proof.
  eexists. split; [reflexivity|].
  match goal with
  | |- res_status ?r = _ =>
      destruct (updatePassword_sent_only_with_current_password
                  Sample.sign Sample.correct Sample.digest Sample.valid
                  Sample.env 3000 Sample.alice_update Sample.alice_attached
                  (snd (updatePassword Sample.sign Sample.correct
                          Sample.digest Sample.valid Sample.env 3000
                          Sample.alice_update Sample.alice_attached))
                  r eq_refl)
        as (ru & user & token & _ & _ & _ & Hs & _)
  end.
  exact Hs.
Defined.

Lemma updatePassword_without_identity_witness :
  updatePassword Sample.sign Sample.correct Sample.digest Sample.valid
    Sample.env 3000 Sample.alice_update Sample.state
  = (Next [AErr TypeError], Sample.state).
Proof.
  apply (updatePassword_without_identity Sample.sign Sample.correct
           Sample.digest Sample.valid Sample.env 3000 Sample.alice_update
           Sample.state).
  left. reflexivity.
Defined.

Lemma protect_token_from_header_witness :
  protect_token (Sample.with_auth (Some "Bearer abc.def") (Some "u2"))
  = inr (Some "abc.def")
  /\ protect_token (Sample.with_auth (Some "BearerX abc.def trailer") None)
     = inr (Some "abc.def").
Proof.
  split.
  - apply (protect_token_from_header
             (Sample.with_auth (Some "Bearer abc.def") (Some "u2"))
             "Bearer" "abc.def" "" eq_refl eq_refl eq_refl).
    left. reflexivity.
  - apply (protect_token_from_header
             (Sample.with_auth (Some "BearerX abc.def trailer") None)
             "BearerX" "abc.def" "trailer" eq_refl eq_refl eq_refl).
    right. reflexivity.
Defined.

Lemma protect_empty_second_piece_witness :
  protect Sample.verify Sample.env 2000
    (Sample.with_auth (Some "Bearer ") (Some "u1")) Sample.state
  = (Next [AErr (AppError
                   "You are not logged in! Please log in to get access."
                   (Some 401))], Sample.state).
Proof.
  apply (protect_empty_second_piece Sample.verify Sample.env 2000
           (Sample.with_auth (Some "Bearer ") (Some "u1")) Sample.state
           "Bearer" "" eq_refl eq_refl).
  left. reflexivity.
Defined.



Lemma logout_then_gates_witness :
  isLoggedIn Sample.verify_known Sample.env 2000
    (Sample.with_auth None (Some "loggedout")) Sample.state
  = (Next [], Sample.state)
  /\ protect Sample.verify_known Sample.env 2000
       (Sample.with_auth None (Some "loggedout")) Sample.state
     = (Next [AErr (LibError "JsonWebTokenError")], Sample.state).
Proof.
  apply (logout_then_gates Sample.verify_known Sample.env 1500 2000
           Sample.request (Sample.with_auth None (Some "loggedout"))
           Sample.state
           (mkResponse
              (Some (mkCookie "jwt" "loggedout" (1500 + 10 * 1000) true None))
              200 (mkJson "success" None None None))
           (mkCookie "jwt" "loggedout" (1500 + 10 * 1000) true None)
           (LibError "JsonWebTokenError")
           eq_refl eq_refl eq_refl eq_refl eq_refl).
Defined.

Lemma gates_agree_without_header_witness :
  locals_user (snd (isLoggedIn Sample.verify Sample.env 2000
                      (Sample.with_auth None (Some "u1")) Sample.state))
  = locals_user (snd (protect Sample.verify Sample.env 2000
                        (Sample.with_auth None (Some "u1")) Sample.state))
  /\ isLoggedIn Sample.verify Sample.env 2000 (Sample.unparsed None)
       Sample.state = (Thrown TypeError, Sample.state).
Proof.
  split.
  - apply (proj1 (proj1 (gates_agree_without_header Sample.verify Sample.env
                           2000 (Sample.with_auth None (Some "u1"))
                           Sample.state eq_refl)
                    (mkJar (Some "u1")) eq_refl)).
    reflexivity.
  - apply (proj2 (gates_agree_without_header Sample.verify Sample.env
                    2000 (Sample.unparsed None) Sample.state eq_refl)).
    reflexivity.
Defined.
